(** * Health-audit notebook runner of [app.py]

    A shallow embedding of [run_health_audit_notebook] and of the
    [POST /api/health/run] handler [run_and_get_health], together with the
    properties of the cell selection, of the reduced notebook, of the output
    inspection and of the error handling.

    Conventions of the embedding.
    - Python [str] is [string], a character being a code point below 256;
      [lower], [lstrip] and [strip] follow Python on these code points.
      Text with code points from 256 on is outside the model.
    - Loosely typed JSON leaves (tags, output payloads, database values) are
      [pyval]; cells and outputs are records whose optional keys are
      [option] fields, read through [dict.get] with its default.
    - A Python call that may raise returns [result].  An exception is
      either an instance of [Exception], which the two handlers of the
      program catch, or one that is not ([KeyboardInterrupt], [SystemExit],
      [asyncio.CancelledError]), which they let through.
    - The outside world (notebook file, execution engine, database) is an
      [Env] of oracles; the effects performed are recorded as a trace of
      [event]s.
    - [nbformat.v4.new_notebook] validates the notebook it makes; the
      validation is given on the keys of cells and outputs that the model
      carries. *)

From Stdlib Require Import ZArith List Bool Ascii String DecimalString Lia.
Import ListNotations.
Local Open Scope string_scope.
Local Open Scope list_scope.
Local Open Scope Z_scope.

(** ** Python values, exceptions and results *)

#[warnings="-register-all"]
Inductive pyval : Type :=
| PyNone
| PyBool (b : bool)
| PyInt (n : Z)
| PyStr (s : string)
| PyList (items : list pyval)
| PyDict (fields : list (string * pyval)).

(** An exception, with its class name and [str(e)]: [PyExc] for the
    instances of [Exception], [PyBaseExc] for those of [BaseException] that
    are not ([KeyboardInterrupt], [SystemExit], [asyncio.CancelledError]). *)
Inductive exn : Type :=
| PyExc (cls : string) (msg : string)
| PyBaseExc (cls : string) (msg : string).

(** [isinstance(e, Exception)] *)
Definition is_exception (e : exn) : bool :=
  match e with
  | PyExc _ _ => true
  | PyBaseExc _ _ => false
  end.

Definition exn_str (e : exn) : string :=
  match e with
  | PyExc _ msg => msg
  | PyBaseExc _ msg => msg
  end.

(** [type(v).__name__]; the dicts of a notebook are [NotebookNode]s. *)
Definition py_type_name (v : pyval) : string :=
  match v with
  | PyNone => "NoneType"
  | PyBool _ => "bool"
  | PyInt _ => "int"
  | PyStr _ => "str"
  | PyList _ => "list"
  | PyDict _ => "NotebookNode"
  end.

Inductive result (A : Type) : Type :=
| Ok (a : A)
| Raise (e : exn).
Arguments Ok {A} a.
Arguments Raise {A} e.

Definition rbind {A B : Type} (m : result A) (k : A -> result B) : result B :=
  match m with
  | Ok a => k a
  | Raise e => Raise e
  end.

Declare Scope result_scope.
Delimit Scope result_scope with result.
Notation "x <- m ;; k" := (rbind m (fun x => k))
  (at level 61, m at next level, right associativity) : result_scope.

(** ** Strings, as Python's [str] methods use them *)

Module PyString.

Definition nl : string := String (ascii_of_nat 10) EmptyString.
Definition tab : string := String (ascii_of_nat 9) EmptyString.

(** [str.isspace] on one character: TAB, LF, VT, FF, CR, FS, GS, RS, US,
    the space, NEL and the no-break space. *)
Definition isspace (c : ascii) : bool :=
  let n := N_of_ascii c in
  ((9 <=? n) && (n <=? 13) || (28 <=? n) && (n <=? 32)
   || (n =? 133) || (n =? 160))%N.

(** [str.lower] on one character: A-Z, and the upper-case letters of
    Latin-1 (192 to 222 but the multiplication sign 215). *)
Definition lower_char (c : ascii) : ascii :=
  let n := N_of_ascii c in
  if ((65 <=? n) && (n <=? 90)
      || (192 <=? n) && (n <=? 222) && negb (n =? 215))%N
  then ascii_of_N (n + 32) else c.

(** [s.lower()] *)
Fixpoint lower (s : string) : string :=
  match s with
  | EmptyString => EmptyString
  | String c s' => String (lower_char c) (lower s')
  end.

(** [s.lstrip()] *)
Fixpoint lstrip (s : string) : string :=
  match s with
  | EmptyString => EmptyString
  | String c s' => if isspace c then lstrip s' else s
  end.

(** [s.rstrip()] *)
Fixpoint rstrip (s : string) : string :=
  match s with
  | EmptyString => EmptyString
  | String c s' =>
      match rstrip s' with
      | EmptyString => if isspace c then EmptyString else String c EmptyString
      | r => String c r
      end
  end.

(** [s.strip()] *)
Definition strip (s : string) : string := rstrip (lstrip s).

(** [s.startswith(p)] *)
Definition startswith (s p : string) : bool := String.prefix p s.

(** [sub in s] *)
Fixpoint contains (sub s : string) : bool :=
  String.prefix sub s ||
  match s with
  | EmptyString => false
  | String _ s' => contains sub s'
  end.

(** [sep.join(parts)] for a list of [str] *)
Definition join (sep : string) (parts : list string) : string :=
  String.concat sep parts.

End PyString.

(** ** Lists, as Python indexes them *)

(** [range(lo, hi)] *)
Definition py_range (lo hi : Z) : list Z :=
  map (fun k => lo + Z.of_nat k) (seq 0 (Z.to_nat (hi - lo))).

(** [xs[idx]]: a negative index counts from the end; out of range raises
    [IndexError]. *)
Definition py_index {A : Type} (xs : list A) (idx : Z) : result A :=
  let n := Z.of_nat (List.length xs) in
  let j := if idx <? 0 then idx + n else idx in
  if (j <? 0) || (n <=? j) then Raise (PyExc "IndexError" "list index out of range")
  else match nth_error xs (Z.to_nat j) with
       | Some x => Ok x
       | None => Raise (PyExc "IndexError" "list index out of range")
       end.

(** [d.get(key)] on a dict given as an association list. *)
Fixpoint dict_get (d : list (string * pyval)) (key : string) : option pyval :=
  match d with
  | [] => None
  | (k, v) :: d' => if String.eqb k key then Some v else dict_get d' key
  end.

(** ** Notebook data model (nbformat v4 nodes) *)

(** [cell.source]: one string, or the list of lines of the on-disk form;
    the program reads it through [''.join(cell.source)]. *)
Inductive source_text : Type :=
| SrcStr (s : string)
| SrcLines (lines : list string).

Definition join_source (src : source_text) : string :=
  match src with
  | SrcStr s => s
  | SrcLines lines => PyString.join "" lines
  end.

Record Output : Type := mkOutput {
  output_type : option string;
  text : option pyval;
  data : option (list (string * pyval));
  traceback : option (list pyval)
}.

Record Metadata : Type := mkMetadata {
  tags : option (list pyval)
}.

Record Cell : Type := mkCell {
  cell_type : string;
  metadata : option Metadata;
  source : source_text;
  outputs : option (list Output)
}.

Record Notebook : Type := mkNotebook {
  cells : list Cell
}.

(** [nbformat.v4.new_code_cell(source)]; the cell it makes is valid. *)
Definition new_code_cell (src : string) : Cell :=
  mkCell "code" (Some (mkMetadata None)) (SrcStr src) (Some []).

(** The node [nbformat.v4.new_notebook(cells=cs)] makes, before it
    validates it: see [v4_new_notebook] for the call as a whole. *)
Definition new_notebook (cs : list Cell) : Notebook := mkNotebook cs.

(** ** Validation against the notebook schema *)

(** Modelled from the nbformat v4 schema, which is not part of the program:
    what [validate] checks on the keys the model carries.  The keys it does
    not carry (id, execution_count, name, ename, evalue, the metadata of an
    output) are taken to be present and valid. *)

(** A string, or a list of strings. *)
Definition is_multiline_string (v : pyval) : bool :=
  match v with
  | PyStr _ => true
  | PyList items =>
      forallb (fun i => match i with PyStr _ => true | _ => false end) items
  | _ => false
  end.

(** A tag: a string that is not empty and holds no comma. *)
Definition valid_tag (t : pyval) : bool :=
  match t with
  | PyStr s => negb (String.eqb s "") && negb (PyString.contains "," s)
  | _ => false
  end.

(** The strings of a list of values. *)
Fixpoint strs_of (vs : list pyval) : list string :=
  match vs with
  | [] => []
  | PyStr s :: vs' => s :: strs_of vs'
  | _ :: vs' => strs_of vs'
  end.

(** No string occurs twice. *)
Fixpoint unique_strs (ss : list string) : bool :=
  match ss with
  | [] => true
  | s :: ss' => negb (existsb (String.eqb s) ss') && unique_strs ss'
  end.

(** [metadata.tags]: valid tags, each one once. *)
Definition valid_tags (ts : list pyval) : bool :=
  forallb valid_tag ts && unique_strs (strs_of ts).

(** [s.endswith(suffix)] *)
Fixpoint endswith (s suffix : string) : bool :=
  String.eqb s suffix ||
  match s with
  | EmptyString => false
  | String _ s' => endswith s' suffix
  end.

(** A key of a mime bundle under which any JSON value may sit: the keys
    the schema gives as [^application/(.*\+)?json$]. *)
Definition is_json_mime (key : string) : bool :=
  String.eqb key "application/json" ||
  (PyString.startswith key "application/" && endswith key "+json"
   && negb (PyString.contains PyString.nl key)).

(** A mime bundle: under any other key, a string or a list of strings. *)
Definition valid_mimebundle (d : list (string * pyval)) : bool :=
  forallb (fun kv => is_json_mime (fst kv) || is_multiline_string (snd kv)) d.

Definition no_key {A : Type} (field : option A) : bool :=
  match field with
  | Some _ => false
  | None => true
  end.

(** An output: one of the four kinds, with the keys of its kind only. *)
Definition valid_output (out : Output) : bool :=
  match output_type out with
  | Some ty =>
      if String.eqb ty "stream" then
        match text out with
        | Some v => is_multiline_string v
        | None => false
        end && no_key (data out) && no_key (traceback out)
      else if String.eqb ty "execute_result" || String.eqb ty "display_data" then
        match data out with
        | Some d => valid_mimebundle d
        | None => false
        end && no_key (text out) && no_key (traceback out)
      else if String.eqb ty "error" then
        match traceback out with
        | Some items => is_multiline_string (PyList items)
        | None => false
        end && no_key (text out) && no_key (data out)
      else false
  | None => false
  end.

(** A cell: code, markdown or raw, with metadata; a code cell has outputs,
    the others have none. *)
Definition valid_cell (c : Cell) : bool :=
  match metadata c with
  | Some m =>
      match tags m with
      | Some ts => valid_tags ts
      | None => true
      end
  | None => false
  end &&
  (if String.eqb (cell_type c) "code" then
     match outputs c with
     | Some outs => forallb valid_output outs
     | None => false
     end
   else if String.eqb (cell_type c) "markdown" || String.eqb (cell_type c) "raw" then
     no_key (outputs c)
   else false).

(** [validate(nb)]: raises [NotebookValidationError], an [Exception], when a
    cell is not valid.  The text of the error is the validator's account of
    the first violation; it is not modelled and left empty. *)
Definition validate (nb : Notebook) : result unit :=
  if forallb valid_cell (cells nb) then Ok tt
  else Raise (PyExc "NotebookValidationError" "").

(** [nbformat.v4.new_notebook(cells=cs)]: makes the node and validates
    it. *)
Definition v4_new_notebook (cs : list Cell) : result Notebook :=
  let nb := new_notebook cs in
  (_ <- validate nb ;; Ok nb)%result.

(** ** Cell selection *)

Definition NOTEBOOK_PATH : string := "WSB-DSS.ipynb".

Definition health_tag : string := "ui:health".

Definition pip_install : string := "%pip install".

Definition load_markers : list string :=
  [ "listings = pd.read_csv";
    "calendar = pd.read_csv";
    "reviews = pd.read_csv";
    "def run_health_audit";
    "def persist_health_audit";
    "persist_health_audit(";
    "run_health_audit(" ].

(** [isinstance(t, str)] *)
Definition isinstance_str (t : pyval) : bool :=
  match t with
  | PyStr _ => true
  | _ => false
  end.

(** [t.lower()]: only [str] has the method. *)
Definition py_lower (t : pyval) : result string :=
  match t with
  | PyStr s => Ok (PyString.lower s)
  | _ => Raise (PyExc "AttributeError"
                  ("'" ++ py_type_name t ++ "' object has no attribute 'lower'"))
  end.

(** [isinstance(t, str) and t.lower() == 'ui:health']; [and] evaluates its
    right operand only when the left one is true. *)
Definition tag_is_health (t : pyval) : result bool :=
  if isinstance_str t
  then (s <- py_lower t ;; Ok (String.eqb s health_tag))%result
  else Ok false.

(** [cell.get('metadata', {}).get('tags', [])] *)
Definition cell_tags (cell : Cell) : list pyval :=
  match metadata cell with
  | Some m => match tags m with
              | Some ts => ts
              | None => []
              end
  | None => []
  end.

(** Truth value of a list: non-empty. *)
Definition truthy {A : Type} (xs : list A) : bool :=
  match xs with
  | [] => false
  | _ :: _ => true
  end.

(** The inner loop of step 1,
    [for t in tags: if ...: last_needed_idx = max(last_needed_idx, i); break]. *)
Fixpoint scan_tags (ts : list pyval) (i last_needed_idx : Z) : result Z :=
  match ts with
  | [] => Ok last_needed_idx
  | t :: ts' =>
      (hit <- tag_is_health t ;;
       if hit then Ok (Z.max last_needed_idx i)
       else scan_tags ts' i last_needed_idx)%result
  end.

(** Step 1, [for i, cell in enumerate(nb.cells)], from index [i] on. *)
Fixpoint tag_pass (cs : list Cell) (i last_needed_idx : Z) : result Z :=
  match cs with
  | [] => Ok last_needed_idx
  | cell :: cs' =>
      let tags := cell_tags cell in
      (last' <- (if truthy tags then scan_tags tags i last_needed_idx
                 else Ok last_needed_idx) ;;
       tag_pass cs' (i + 1) last')%result
  end.

(** The inner loop of step 2,
    [for marker in load_markers: if marker in src: ...; break]. *)
Fixpoint scan_markers (markers : list string) (src : string)
  (i last_needed_idx : Z) : Z :=
  match markers with
  | [] => last_needed_idx
  | marker :: markers' =>
      if PyString.contains marker src then Z.max last_needed_idx i
      else scan_markers markers' src i last_needed_idx
  end.

(** Step 2, [for i, cell in enumerate(nb.cells)], from index [i] on. *)
Fixpoint marker_pass (cs : list Cell) (i last_needed_idx : Z) : Z :=
  match cs with
  | [] => last_needed_idx
  | cell :: cs' =>
      let src := join_source (source cell) in
      if PyString.startswith (PyString.lstrip src) pip_install
      then marker_pass cs' (i + 1) last_needed_idx
      else marker_pass cs' (i + 1) (scan_markers load_markers src i last_needed_idx)
  end.

(** Steps 1 to 3: the value of [last_needed_idx] when the subset is built. *)
Definition select_cutoff (nb : Notebook) : result Z :=
  (let last_needed_idx := -1 in
   last_needed_idx <- tag_pass (cells nb) 0 last_needed_idx ;;
   let last_needed_idx :=
     if last_needed_idx <? 0 then marker_pass (cells nb) 0 last_needed_idx
     else last_needed_idx in
   let last_needed_idx :=
     if last_needed_idx <? 0
     then Z.min (Z.of_nat (List.length (cells nb)) - 1) 19
     else last_needed_idx in
   Ok last_needed_idx)%result.

(** ** The subset notebook *)

Definition post_snippet : string :=
  (PyString.nl ++
  "try:" ++ PyString.nl ++
  PyString.tab ++ "audit = run_health_audit(listings, calendar, reviews, verbose=False)" ++ PyString.nl ++
  PyString.tab ++ "persist_health_audit(audit, overwrite=True, verbose=False)" ++ PyString.nl ++
  PyString.tab ++ "print('WSB_DSS_HEALTH_PERSISTED')" ++ PyString.nl ++
  "except Exception as e:" ++ PyString.nl ++
  PyString.tab ++ "print('WSB_DSS_HEALTH_ERROR', e)" ++ PyString.nl)%string.

(** The body of [for idx in range(0, last_needed_idx+1)], over the indices
    still to visit, [selected_cells] being the list built so far. *)
Fixpoint select_loop (nb_cells : list Cell) (idxs : list Z)
  (selected_cells : list Cell) : result (list Cell) :=
  match idxs with
  | [] => Ok selected_cells
  | idx :: idxs' =>
      (cell <- py_index nb_cells idx ;;
       let src := PyString.strip (join_source (source cell)) in
       if PyString.startswith src pip_install
       then select_loop nb_cells idxs' selected_cells
       else select_loop nb_cells idxs' (selected_cells ++ [cell]))%result
  end.

(** [selected_cells] after the loop and the appended snippet cell, then
    [subset_nb = nbformat.v4.new_notebook(cells=selected_cells)], which
    raises when the cells are not valid. *)
Definition build_subset (nb : Notebook) (last_needed_idx : Z) : result Notebook :=
  (selected_cells <- select_loop (cells nb) (py_range 0 (last_needed_idx + 1)) [] ;;
   let selected_cells := selected_cells ++ [new_code_cell post_snippet] in
   v4_new_notebook selected_cells)%result.

(** ** Inspection of the outputs of the last cell *)

Definition success_marker : string := "WSB_DSS_HEALTH_PERSISTED".

(** [out.get('output_type') == name] *)
Definition output_type_is (out : Output) (name : string) : bool :=
  match output_type out with
  | Some ty => String.eqb ty name
  | None => false
  end.

(** The double quote, as a string. *)
Definition dquote : string := String (ascii_of_nat 34) EmptyString.

(** [stdout_text += v]: adding anything but a [str] to a [str] raises. *)
Definition str_iadd (stdout_text : string) (v : pyval) : result string :=
  match v with
  | PyStr s => Ok (stdout_text ++ s)%string
  | _ => Raise (PyExc "TypeError"
                  ("can only concatenate str (not " ++ dquote ++ py_type_name v
                   ++ dquote ++ ") to str"))
  end.

(** [str(i)] for an index *)
Definition str_of_nat (i : nat) : string :=
  NilEmpty.string_of_uint (Nat.to_uint i).

(** The items of a list handed to [str.join], from position [i] on: each
    has to be a [str]. *)
Fixpoint str_items_from (i : nat) (items : list pyval) : result (list string) :=
  match items with
  | [] => Ok []
  | PyStr s :: items' => (rest <- str_items_from (S i) items' ;; Ok (s :: rest))%result
  | v :: _ => Raise (PyExc "TypeError"
                       ("sequence item " ++ str_of_nat i ++ ": expected str instance, "
                        ++ py_type_name v ++ " found"))
  end.

Definition str_items (items : list pyval) : result (list string) :=
  str_items_from 0 items.

(** [sep.join(items)] for a list of arbitrary values *)
Definition py_join (sep : string) (items : list pyval) : result string :=
  (parts <- str_items items ;; Ok (PyString.join sep parts))%result.

Definition get_default {A : Type} (field : option A) (default : A) : A :=
  match field with
  | Some v => v
  | None => default
  end.

(** One iteration of [for out in last_outputs]. *)
Definition output_step (stdout_text : string) (out : Output) : result string :=
  if output_type_is out "stream" then
    str_iadd stdout_text (get_default (text out) (PyStr ""))
  else if output_type_is out "execute_result" || output_type_is out "display_data" then
    let data := get_default (data out) [] in
    match dict_get data "text/plain" with
    | Some v => str_iadd stdout_text v
    | None => Ok stdout_text
    end
  else if output_type_is out "error" then
    (tb <- py_join PyString.nl (get_default (traceback out) []) ;;
     Ok (stdout_text ++ tb)%string)%result
  else Ok stdout_text.

Fixpoint collect_outputs (last_outputs : list Output) (stdout_text : string)
  : result string :=
  match last_outputs with
  | [] => Ok stdout_text
  | out :: rest =>
      (stdout_text' <- output_step stdout_text out ;;
       collect_outputs rest stdout_text')%result
  end.

(** [stdout_text] once the loop over [subset_nb.cells[-1].get('outputs', [])]
    is over. *)
Definition inspect_last_cell (subset_nb : Notebook) : result string :=
  (last_cell <- py_index (cells subset_nb) (-1) ;;
   let last_outputs := get_default (outputs last_cell) [] in
   collect_outputs last_outputs "")%result.

(** ** The world: notebook file, execution engine, database *)

(** Modelled from the spec: the table [health_checks] is created by the
    notebook's own code, which is not part of the program; its columns are
    (dataset_id, computed_at, metrics), in this order. *)
Record HealthRow : Type := mkHealthRow {
  dataset_id : pyval;
  computed_at : Z;
  metrics : pyval
}.

(** A connection, as the health query sees it: the rows of the table
    [health_checks], or the exception DuckDB raises when it runs the query
    (no such table, an I/O error). *)
Record Database : Type := mkDatabase {
  health_checks : result (list HealthRow)
}.

Record Env : Type := mkEnv {
  (** [nbformat.read(path, as_version=v)] *)
  nbformat_read : string -> Z -> result Notebook;
  (** [NotebookClient(nb, timeout=t, allow_errors=a).execute()]: the
      notebook as the engine leaves it, outputs filled in. *)
  nbclient_execute : Notebook -> Z -> bool -> result Notebook;
  (** [duckdb.connect(database)] *)
  duckdb_connect : string -> result Database
}.

Inductive event : Type :=
| EvLockAcquire
| EvLockRelease
| EvNbRead (path : string) (as_version : Z)
| EvNbExecute (nb : Notebook) (timeout : Z) (allow_errors : bool)
| EvPrint (line : string)
| EvDbConnect (database : string)
| EvDbExecute (sql : string).

(** A computation: reads the world, returns or raises, and leaves the trace
    of what it did. *)
Definition M (A : Type) : Type := Env -> result A * list event.

Definition ret {A : Type} (a : A) : M A := fun _ => (Ok a, []).

Definition bind {A B : Type} (m : M A) (k : A -> M B) : M B :=
  fun env =>
    match m env with
    | (Ok a, tr) => let (r, tr') := k a env in (r, tr ++ tr')
    | (Raise e, tr) => (Raise e, tr)
    end.

Definition lift {A : Type} (r : result A) : M A := fun _ => (r, []).

(** [try: body except Exception as e: handler]: an exception that is
    not an instance of [Exception] goes through. *)
Definition try_except {A : Type} (body : M A) (handler : exn -> M A) : M A :=
  fun env =>
    match body env with
    | (Ok a, tr) => (Ok a, tr)
    | (Raise e, tr) =>
        if is_exception e
        then let (r, tr') := handler e env in (r, tr ++ tr')
        else (Raise e, tr)
    end.

(** [with HEALTH_LOCK: body]: released on every way out. *)
Definition with_lock {A : Type} (body : M A) : M A :=
  fun env => let (r, tr) := body env in (r, [EvLockAcquire] ++ tr ++ [EvLockRelease]).

Declare Scope M_scope.
Delimit Scope M_scope with M.
Notation "x <- m ;; k" := (bind m (fun x => k))
  (at level 61, m at next level, right associativity) : M_scope.

Definition read_notebook (path : string) (as_version : Z) : M Notebook :=
  fun env => (nbformat_read env path as_version, [EvNbRead path as_version]).

Definition execute_notebook (nb : Notebook) (timeout : Z) (allow_errors : bool)
  : M Notebook :=
  fun env => (nbclient_execute env nb timeout allow_errors,
              [EvNbExecute nb timeout allow_errors]).

Definition print (line : string) : M unit :=
  fun _ => (Ok tt, [EvPrint line]).

Definition db_connect (database : string) : M Database :=
  fun env => (duckdb_connect env database, [EvDbConnect database]).

(** ** [run_health_audit_notebook] *)

(** The block under [with HEALTH_LOCK]. *)
Definition audit_block : M bool :=
  (nb <- read_notebook NOTEBOOK_PATH 4 ;;
   last_needed_idx <- lift (select_cutoff nb) ;;
   subset_nb <- lift (build_subset nb last_needed_idx) ;;
   subset_nb <- execute_notebook subset_nb 900 true ;;
   stdout_text <- lift (inspect_last_cell subset_nb) ;;
   let persisted := PyString.contains success_marker stdout_text in
   ret persisted)%M.

(** The function: whatever [persisted] is, the [try] block ends in
    [return True]; the handler, for an [Exception], prints and returns
    [False]. *)
Definition run_health_audit_notebook : M bool :=
  try_except
    (persisted <- with_lock audit_block ;; ret true)%M
    (fun e =>
       (_ <- print ("Notebook execution error: " ++ exn_str e)%string ;;
        ret false)%M).

(** ** [run_and_get_health] *)

Definition DATABASE_PATH : string := "wsb_dss.duckdb".

Definition HEALTH_QUERY : string :=
  "SELECT * FROM health_checks ORDER BY computed_at DESC LIMIT 1".

(** The tuple [SELECT *] yields for a row; [computed_at] is shown as the
    integer time stamp the rows are ordered by. *)
Definition row_tuple (r : HealthRow) : list pyval :=
  [dataset_id r; PyInt (computed_at r); metrics r].

(** [ORDER BY computed_at DESC LIMIT 1]: a row no other row is later than. *)
Fixpoint latest_row (rows : list HealthRow) : option HealthRow :=
  match rows with
  | [] => None
  | r :: rows' =>
      match latest_row rows' with
      | Some r' => if computed_at r <? computed_at r' then Some r' else Some r
      | None => Some r
      end
  end.

(** [con.execute(HEALTH_QUERY).fetchone()]: raises what DuckDB raises, is
    [None] when the table is empty. *)
Definition fetch_latest_health (con : Database) : M (option (list pyval)) :=
  fun _ =>
    (match health_checks con with
     | Ok rows => Ok (option_map row_tuple (latest_row rows))
     | Raise e => Raise e
     end,
     [EvDbExecute HEALTH_QUERY]).

(** [dict(zip(keys, row))] *)
Definition dict_zip (keys : list string) (row : list pyval) : pyval :=
  PyDict (combine keys row).

Definition run_and_get_health : M pyval :=
  (ok <- run_health_audit_notebook ;;
   if negb ok then
     ret (PyDict [("status", PyStr "error");
                  ("error", PyStr "Failed to execute health audit cells.")])
   else
     try_except
       (con <- db_connect DATABASE_PATH ;;
        row <- fetch_latest_health con ;;
        match row with
        | Some ((_ :: _) as row) =>
            ret (PyDict [("status", PyStr "ok");
                         ("data", dict_zip ["dataset_id"; "computed_at"; "metrics"] row)])
        | _ =>
            ret (PyDict [("status", PyStr "empty"); ("data", PyNone)])
        end)
       (fun e =>
          ret (PyDict [("status", PyStr "error"); ("error", PyStr (exn_str e))])))%M.

(** * Vocabulary of the specification *)

(** ** Cells, cutoffs and the reduced document *)

(** A tag that is a string equal to the health marker up to case. *)
Definition is_health_tag (t : pyval) : bool :=
  match t with
  | PyStr s => String.eqb (PyString.lower s) health_tag
  | _ => false
  end.

(** The cell is tagged as the health marker. *)
Definition has_health_tag (c : Cell) : bool :=
  existsb is_health_tag (cell_tags c).

(** The source, after leading whitespace, begins with the
    package-installation directive. *)
Definition is_install_cell (c : Cell) : bool :=
  PyString.startswith (PyString.lstrip (join_source (source c))) pip_install.

(** The stripped source starts with the package-installation directive. *)
Definition stripped_install_cell (c : Cell) : bool :=
  PyString.startswith (PyString.strip (join_source (source c))) pip_install.

(** The source contains one of the marker substrings. *)
Definition contains_marker (c : Cell) : bool :=
  existsb (fun marker => PyString.contains marker (join_source (source c)))
          load_markers.

(** A match of the content heuristic: a marker in a cell that is not a
    package-installation cell. *)
Definition marker_match (c : Cell) : bool :=
  negb (is_install_cell c) && contains_marker c.

(** [k] is the maximum index among the cells that satisfy [P]. *)
Definition max_index_where (P : Cell -> bool) (cs : list Cell) (k : Z) : Prop :=
  0 <= k /\
  (exists c, nth_error cs (Z.to_nat k) = Some c /\ P c = true) /\
  (forall j c, nth_error cs j = Some c -> P c = true -> Z.of_nat j <= k).

(** The last character of [p] is not whitespace. *)
Fixpoint ends_in_non_space (p : string) : bool :=
  match p with
  | EmptyString => false
  | String a EmptyString => negb (PyString.isspace a)
  | String _ p' => ends_in_non_space p'
  end.

(** The synthesis cell. *)
Definition synthesis_cell : Cell := new_code_cell post_snippet.

(** Cells [0..cutoff] of the document, package-installation cells dropped. *)
Definition filtered_prefix (nb : Notebook) (cutoff : Z) : list Cell :=
  filter (fun c => negb (stripped_install_cell c))
         (firstn (Z.to_nat (cutoff + 1)) (cells nb)).

(** Both scans keep the largest index seen so far at which a test holds. *)
Fixpoint scan_last (P : Cell -> bool) (cs : list Cell) (i last : Z) : Z :=
  match cs with
  | [] => last
  | c :: cs' => scan_last P cs' (i + 1) (if P c then Z.max last i else last)
  end.

(** The three rules of the selector, over the two scans. *)
Definition cutoff_of (cs : list Cell) : Z :=
  let tagged := scan_last has_health_tag cs 0 (-1) in
  let marked := if tagged <? 0 then scan_last marker_match cs 0 tagged else tagged in
  if marked <? 0 then Z.min (Z.of_nat (List.length cs) - 1) 19 else marked.

(** What the selector can see of a cell: its string tags and its source. *)
Definition selector_view (c : Cell) : list pyval * source_text :=
  (filter isinstance_str (cell_tags c), source c).

(** ** The classification buffer *)

(** A rich result or a display output. *)
Definition is_rich (out : Output) : Prop :=
  output_type out = Some "execute_result" \/ output_type out = Some "display_data".

(** [contributes out s]: the output record [out] contributes the text [s]
    to the buffer. *)
Inductive contributes (out : Output) : string -> Prop :=
| stream_text s :
    output_type out = Some "stream" -> text out = Some (PyStr s) ->
    contributes out s
| stream_without_text :
    output_type out = Some "stream" -> text out = None ->
    contributes out ""
| rich_plain_text d s :
    is_rich out -> data out = Some d -> dict_get d "text/plain" = Some (PyStr s) ->
    contributes out s
| rich_without_plain_text d :
    is_rich out -> data out = Some d -> dict_get d "text/plain" = None ->
    contributes out ""
| rich_without_data :
    is_rich out -> data out = None ->
    contributes out ""
| error_traceback lines :
    output_type out = Some "error" -> traceback out = Some (map PyStr lines) ->
    contributes out (PyString.join PyString.nl lines)
| error_without_traceback :
    output_type out = Some "error" -> traceback out = None ->
    contributes out ""
| other_type :
    output_type out <> Some "stream" ->
    output_type out <> Some "execute_result" ->
    output_type out <> Some "display_data" ->
    output_type out <> Some "error" ->
    contributes out "".

(** ** The runner as a whole *)

(** The value of the block under the lock, stage by stage. *)
Definition audit_result (env : Env) : result bool :=
  (nb <- nbformat_read env NOTEBOOK_PATH 4 ;;
   last_needed_idx <- select_cutoff nb ;;
   subset_nb <- build_subset nb last_needed_idx ;;
   subset_nb <- nbclient_execute env subset_nb 900 true ;;
   stdout_text <- inspect_last_cell subset_nb ;;
   Ok (PyString.contains success_marker stdout_text))%result.

Definition is_db_event (ev : event) : bool :=
  match ev with
  | EvDbConnect _ | EvDbExecute _ => true
  | _ => false
  end.

Definition no_db_event (tr : list event) : Prop :=
  Forall (fun ev => is_db_event ev = false) tr.


(** ** The endpoint *)






(** ** Scenarios *)

Definition code_cell (src : string) : Cell :=
  mkCell "code" (Some (mkMetadata None)) (SrcStr src) (Some []).

Definition tagged_cell (ts : list pyval) (src : string) : Cell :=
  mkCell "code" (Some (mkMetadata (Some ts))) (SrcStr src) (Some []).

Definition stream_output (s : string) : Output :=
  mkOutput (Some "stream") (Some (PyStr s)) None None.

(** Five cells, cell 2 tagged, markers in cells 3 and 4. *)
Definition doc5 : Notebook :=
  mkNotebook
    [ code_cell "import pandas as pd";
      code_cell "%pip install duckdb";
      tagged_cell [PyInt 3; PyStr "UI:Health"] "def run_health_audit(l, c, r): pass";
      code_cell "listings = pd.read_csv('listings.csv')";
      code_cell "run_health_audit(listings, calendar, reviews)" ].

(** The same cells with the non-string tag removed. *)
Definition doc5_string_tags : Notebook :=
  mkNotebook
    [ code_cell "import pandas as pd";
      code_cell "%pip install duckdb";
      tagged_cell [PyStr "UI:Health"] "def run_health_audit(l, c, r): pass";
      code_cell "listings = pd.read_csv('listings.csv')";
      code_cell "run_health_audit(listings, calendar, reviews)" ].

(** Twenty-five cells, no tags, load markers in cells 3 and 7, and a
    package-installation cell that mentions a marker at index 10. *)
Definition doc25 : Notebook :=
  mkNotebook
    ([ code_cell "import pandas as pd";
       code_cell "import numpy as np";
       code_cell "import duckdb";
       code_cell "listings = pd.read_csv('listings.csv')";
       code_cell "listings.head()";
       code_cell "listings.describe()";
       code_cell "x = 1";
       code_cell "calendar = pd.read_csv('calendar.csv')";
       code_cell "calendar.head()";
       code_cell "y = 2";
       code_cell "  %pip install pandas # reviews = pd.read_csv" ]
     ++ repeat (code_cell "pass") 14).

(** No tag and no marker. *)
Definition doc_plain : Notebook :=
  mkNotebook [ code_cell "import pandas as pd"; code_cell "x = 1" ].

(** An engine that leaves the outputs [outs] on the last cell. *)
Definition engine_leaving (outs : list Output)
  (nb : Notebook) (timeout : Z) (allow_errors : bool) : result Notebook :=
  match rev (cells nb) with
  | [] => Ok nb
  | c :: before =>
      Ok (mkNotebook
            (rev before ++ [mkCell (cell_type c) (metadata c) (source c) (Some outs)]))
  end.

(** An engine that gives up after its timeout. *)
Definition engine_timing_out
  (nb : Notebook) (timeout : Z) (allow_errors : bool) : result Notebook :=
  Raise (PyExc "CellTimeoutError" "A cell timed out while it was being executed").

Definition health_rows : list HealthRow :=
  [ mkHealthRow (PyStr "wsb") 100 (PyStr "{}");
    mkHealthRow (PyStr "wsb") 300 (PyStr "{'rows_cols': {}}");
    mkHealthRow (PyStr "wsb") 200 (PyStr "{}") ].

(** The snippet fails inside the notebook: it prints the failure marker. *)
Definition failed_audit_env : Env :=
  mkEnv (fun _ _ => Ok doc_plain)
        (engine_leaving
           [stream_output
              ("WSB_DSS_HEALTH_ERROR name 'run_health_audit' is not defined"
               ++ PyString.nl)%string])
        (fun _ => Ok (mkDatabase (Ok health_rows))).

(** The snippet succeeds and the table has rows. *)
Definition persisted_env : Env :=
  mkEnv (fun _ _ => Ok doc25)
        (engine_leaving [stream_output ("WSB_DSS_HEALTH_PERSISTED" ++ PyString.nl)%string])
        (fun _ => Ok (mkDatabase (Ok health_rows))).

(** The engine times out on the prefix. *)
Definition timeout_env : Env :=
  mkEnv (fun _ _ => Ok doc25)
        engine_timing_out
        (fun _ => Ok (mkDatabase (Ok health_rows))).

(** The notebook file is missing. *)
Definition missing_file_env : Env :=
  mkEnv (fun _ _ => Raise (PyExc "FileNotFoundError" "No such file or directory: 'WSB-DSS.ipynb'"))
        (engine_leaving [])
        (fun _ => Ok (mkDatabase
                        (Raise (PyExc "CatalogException"
                                  "Catalog Error: Table with name health_checks does not exist!")))).

(** The last cell carries a rich output whose text/plain is not a string. *)
Definition bad_output_env : Env :=
  mkEnv (fun _ _ => Ok doc_plain)
        (engine_leaving
           [mkOutput (Some "display_data") None
                     (Some [("text/plain", PyList [PyStr "a"; PyStr "b"])]) None])
        (fun _ => Ok (mkDatabase
                        (Raise (PyExc "CatalogException"
                                  "Catalog Error: Table with name health_checks does not exist!")))).

(** A last cell with one output of each kind. *)
Definition mixed_outputs : list Output :=
  [ stream_output "loading ";
    mkOutput (Some "execute_result") None (Some [("text/html", PyStr "<b>1</b>");
                                                 ("text/plain", PyStr "1")]) None;
    mkOutput (Some "display_data") None (Some [("image/png", PyStr "iVBOR")]) None;
    mkOutput (Some "error") None None (Some [PyStr "Traceback"; PyStr "NameError"]);
    mkOutput (Some "update_display_data") (Some (PyStr "ignored")) None None;
    stream_output "WSB_DSS_HEALTH_PERSISTED" ].

Definition mixed_parts : list string :=
  [ "loading "; "1"; ""; PyString.join PyString.nl ["Traceback"; "NameError"]; "";
    "WSB_DSS_HEALTH_PERSISTED" ].

Definition mixed_cell : Cell :=
  mkCell "code" (Some (mkMetadata None)) (SrcStr post_snippet) (Some mixed_outputs).

(** ** Effects of a run *)

(** The notebook handed to the engine for a loaded document, when it is
    valid. *)
Definition reduced_document (nb : Notebook) : Notebook :=
  new_notebook (filtered_prefix nb (cutoff_of (cells nb)) ++ [synthesis_cell]).

(** What the block under the lock does: one read and, when the document
    loaded and its reduced document was made, one call of the engine. *)
Definition audit_effects (env : Env) : list event :=
  EvNbRead NOTEBOOK_PATH 4 ::
  match nbformat_read env NOTEBOOK_PATH 4 with
  | Ok nb =>
      match build_subset nb (cutoff_of (cells nb)) with
      | Ok subset_nb => [EvNbExecute subset_nb 900 true]
      | Raise _ => []
      end
  | Raise _ => []
  end.

(** What the runner returns, from the value of the block under the lock:
    true when the block completed, false when it raised an [Exception];
    any other exception goes on to the caller. *)
Definition runner_result (env : Env) : result bool :=
  match audit_result env with
  | Ok _ => Ok true
  | Raise e => if is_exception e then Ok false else Raise e
  end.

(** What the handler of the runner prints: a line for an [Exception]. *)
Definition failure_report (env : Env) : list event :=
  match audit_result env with
  | Ok _ => []
  | Raise e =>
      if is_exception e
      then [EvPrint ("Notebook execution error: " ++ exn_str e)%string]
      else []
  end.

(** What the endpoint does to the database after the runner: nothing
    unless the runner returned true. *)
Definition storage_effects (env : Env) : list event :=
  match fst (run_health_audit_notebook env) with
  | Ok true =>
      EvDbConnect DATABASE_PATH ::
      match duckdb_connect env DATABASE_PATH with
      | Ok _ => [EvDbExecute HEALTH_QUERY]
      | Raise _ => []
      end
  | _ => []
  end.


(** An output record whose payload cannot be added to the buffer. *)
Inductive ill_typed (out : Output) : Prop :=
| stream_not_str v :
    output_type out = Some "stream" -> text out = Some v ->
    isinstance_str v = false -> ill_typed out
| plain_text_not_str d v :
    is_rich out -> data out = Some d -> dict_get d "text/plain" = Some v ->
    isinstance_str v = false -> ill_typed out
| traceback_not_strs items :
    output_type out = Some "error" -> traceback out = Some items ->
    existsb (fun v => negb (isinstance_str v)) items = true -> ill_typed out.

(** ** Further scenarios *)



(** The file holds [doc5], whose third cell has a tag that is not a
    string. *)
Definition invalid_tag_env : Env :=
  mkEnv (fun _ _ => Ok doc5)
        (engine_leaving [stream_output ("WSB_DSS_HEALTH_PERSISTED" ++ PyString.nl)%string])
        (fun _ => Ok (mkDatabase (Ok health_rows))).

(** Thirty cells with no tag and no marker. *)
Definition doc_long_plain : Notebook :=
  mkNotebook (repeat (code_cell "pass") 30).

(** The success marker, then a rich output whose text/plain is a list. *)
Definition late_bad_outputs : list Output :=
  [ stream_output ("WSB_DSS_HEALTH_PERSISTED" ++ PyString.nl)%string;
    mkOutput (Some "display_data") None
             (Some [("text/plain", PyList [PyStr "a"; PyStr "b"])]) None ].

Definition late_bad_cell : Cell :=
  mkCell "code" (Some (mkMetadata None)) (SrcStr post_snippet) (Some late_bad_outputs).

Definition late_bad_output_env : Env :=
  mkEnv (fun _ _ => Ok doc_plain)
        (engine_leaving late_bad_outputs)
        (fun _ => Ok (mkDatabase (Ok health_rows))).

(** * Properties *)

(** ** Scanning for the last index *)

Lemma scan_tags_spec (ts : list pyval) (i last : Z) :
  scan_tags ts i last = Ok (if existsb is_health_tag ts then Z.max last i else last).
Proof.
  induction ts as [|t ts IH]; simpl; [reflexivity|].
  destruct t; simpl; try exact IH.
  destruct (String.eqb (PyString.lower s) health_tag); simpl; [reflexivity | exact IH].
Qed.

Lemma tag_pass_spec (cs : list Cell) :
  forall i last, tag_pass cs i last = Ok (scan_last has_health_tag cs i last).
Proof.
  induction cs as [|c cs IH]; intros i last; simpl; [reflexivity|].
  unfold has_health_tag.
  destruct (cell_tags c) as [|t ts] eqn:E; simpl truthy; cbv iota.
  - simpl. apply IH.
  - rewrite scan_tags_spec. simpl rbind. apply IH.
Qed.

Lemma scan_markers_spec (ms : list string) (src : string) (i last : Z) :
  scan_markers ms src i last =
  if existsb (fun m => PyString.contains m src) ms then Z.max last i else last.
Proof.
  induction ms as [|m ms IH]; simpl; [reflexivity|].
  destruct (PyString.contains m src); simpl; [reflexivity | exact IH].
Qed.

Lemma marker_pass_spec (cs : list Cell) :
  forall i last, marker_pass cs i last = scan_last marker_match cs i last.
Proof.
  induction cs as [|c cs IH]; intros i last; [reflexivity|].
  cbn [marker_pass scan_last]. unfold marker_match, is_install_cell, contains_marker.
  destruct (PyString.startswith _ pip_install); cbn [negb andb].
  - apply IH.
  - rewrite scan_markers_spec. apply IH.
Qed.

Lemma scan_last_none (P : Cell -> bool) (cs : list Cell) :
  (forall c, In c cs -> P c = false) ->
  forall i last, scan_last P cs i last = last.
Proof.
  induction cs as [|c cs IH]; intros H i last; simpl; [reflexivity|].
  rewrite (H c) by (left; reflexivity).
  apply IH. intros c' Hc'. apply H. right. exact Hc'.
Qed.

(** Started below the first index, the scan ends either where it started,
    no cell passing the test, or at the last index that passes it. *)
Lemma scan_last_spec (P : Cell -> bool) (cs : list Cell) :
  forall i last, last < i ->
    let r := scan_last P cs i last in
    (r = last /\ forall c, In c cs -> P c = false) \/
    (i <= r /\
     (exists c, nth_error cs (Z.to_nat (r - i)) = Some c /\ P c = true) /\
     (forall j c, nth_error cs j = Some c -> P c = true -> i + Z.of_nat j <= r)).
Proof.
  induction cs as [|c cs IH]; intros i last Hlt; cbn [scan_last].
  - left. split; [reflexivity | intros c []].
  - destruct (P c) eqn:Pc.
    + right. replace (Z.max last i) with i by lia.
      destruct (IH (i + 1) i ltac:(lia)) as [[Hr Hnone] | [Hle [[c' [Hn Pc']] Hmax]]].
      * rewrite Hr. split; [lia|]. split.
        -- exists c. replace (i - i) with 0 by lia. simpl. auto.
        -- intros [|j] c' Hn Pc'; [lia|].
           simpl in Hn. apply nth_error_In in Hn.
           rewrite (Hnone c' Hn) in Pc'. discriminate.
      * split; [lia|]. split.
        -- exists c'. split; [|exact Pc'].
           replace (Z.to_nat (scan_last P cs (i + 1) i - i))
             with (S (Z.to_nat (scan_last P cs (i + 1) i - (i + 1)))) by lia.
           exact Hn.
        -- intros [|j] c'' Hn' Pc''; [lia|].
           simpl in Hn'. specialize (Hmax j c'' Hn' Pc''). lia.
    + destruct (IH (i + 1) last ltac:(lia)) as [[Hr Hnone] | [Hle [[c' [Hn Pc']] Hmax]]].
      * left. split; [exact Hr|].
        intros c' [<- | Hin]; [exact Pc | apply Hnone; exact Hin].
      * right. split; [lia|]. split.
        -- exists c'. split; [|exact Pc'].
           replace (Z.to_nat (scan_last P cs (i + 1) last - i))
             with (S (Z.to_nat (scan_last P cs (i + 1) last - (i + 1)))) by lia.
           exact Hn.
        -- intros [|j] c'' Hn' Pc''.
           ++ simpl in Hn'. injection Hn' as <-. rewrite Pc in Pc''. discriminate.
           ++ simpl in Hn'. specialize (Hmax j c'' Hn' Pc''). lia.
Qed.

Lemma scan_last_found (P : Cell -> bool) (cs : list Cell) :
  (exists c, In c cs /\ P c = true) ->
  max_index_where P cs (scan_last P cs 0 (-1)).
Proof.
  intros [c [Hin Pc]].
  destruct (scan_last_spec P cs 0 (-1) ltac:(lia)) as [[_ Hnone] | [Hle [Hex Hmax]]].
  - rewrite (Hnone c Hin) in Pc. discriminate.
  - unfold max_index_where. split; [exact Hle|]. split.
    + destruct Hex as [c' [Hn Pc']]. exists c'. split; [|exact Pc'].
      rewrite Z.sub_0_r in Hn. exact Hn.
    + intros j c' Hn Pc'. specialize (Hmax j c' Hn Pc'). lia.
Qed.

Lemma scan_last_bounds (P : Cell -> bool) (cs : list Cell) :
  forall i last, last < i ->
    last <= scan_last P cs i last < i + Z.of_nat (List.length cs).
Proof.
  induction cs as [|c cs IH]; intros i last Hlt; cbn [scan_last List.length].
  - lia.
  - destruct (P c).
    + specialize (IH (i + 1) (Z.max last i) ltac:(lia)). lia.
    + specialize (IH (i + 1) last ltac:(lia)). lia.
Qed.

Lemma scan_last_congr {X : Type} (P : Cell -> bool) (f : Cell -> X) :
  (forall c c', f c = f c' -> P c = P c') ->
  forall cs cs', map f cs = map f cs' ->
  forall i last, scan_last P cs i last = scan_last P cs' i last.
Proof.
  intros HP. induction cs as [|c cs IH]; intros [|c' cs'] Hmap i last;
    try discriminate; [reflexivity|].
  simpl in Hmap. injection Hmap as Hc Hcs.
  cbn [scan_last]. rewrite (HP c c' Hc). apply IH. exact Hcs.
Qed.

(** ** The cutoff *)

Lemma select_cutoff_eq (nb : Notebook) :
  select_cutoff nb = Ok (cutoff_of (cells nb)).
Proof.
  unfold select_cutoff, cutoff_of.
  rewrite tag_pass_spec. cbn [rbind].
  rewrite marker_pass_spec. reflexivity.
Qed.

Lemma cutoff_of_bounds (cs : list Cell) :
  -1 <= cutoff_of cs < Z.of_nat (List.length cs).
Proof.
  unfold cutoff_of.
  pose proof (scan_last_bounds has_health_tag cs 0 (-1) ltac:(lia)) as Ht.
  pose proof (scan_last_bounds marker_match cs 0 (-1) ltac:(lia)) as Hm.
  destruct (Z.ltb_spec (scan_last has_health_tag cs 0 (-1)) 0) as [Hneg|Hpos].
  - replace (scan_last has_health_tag cs 0 (-1)) with (-1) by lia.
    destruct (Z.ltb_spec (scan_last marker_match cs 0 (-1)) 0); lia.
  - destruct (Z.ltb_spec (scan_last has_health_tag cs 0 (-1)) 0); lia.
Qed.

Lemma cutoff_of_tagged (cs : list Cell) :
  (exists c, In c cs /\ has_health_tag c = true) ->
  cutoff_of cs = scan_last has_health_tag cs 0 (-1) /\
  max_index_where has_health_tag cs (cutoff_of cs).
Proof.
  intros Hex. pose proof (scan_last_found _ _ Hex) as Hmax.
  assert (E : cutoff_of cs = scan_last has_health_tag cs 0 (-1)).
  { unfold cutoff_of. destruct Hmax as [H0 _].
    destruct (Z.ltb_spec (scan_last has_health_tag cs 0 (-1)) 0); [lia|].
    cbv zeta. destruct (Z.ltb_spec (scan_last has_health_tag cs 0 (-1)) 0); [lia|].
    reflexivity. }
  split; [exact E | rewrite E; exact Hmax].
Qed.

Lemma cutoff_of_untagged (cs : list Cell) :
  (forall c, In c cs -> has_health_tag c = false) ->
  cutoff_of cs =
  let marked := scan_last marker_match cs 0 (-1) in
  if marked <? 0 then Z.min (Z.of_nat (List.length cs) - 1) 19 else marked.
Proof.
  intros Hnone. unfold cutoff_of.
  rewrite (scan_last_none _ _ Hnone). reflexivity.
Qed.

Lemma has_health_tag_metadata (c c' : Cell) :
  metadata c = metadata c' -> has_health_tag c = has_health_tag c'.
Proof.
  intros H. unfold has_health_tag, cell_tags. rewrite H. reflexivity.
Qed.

Lemma existsb_health_string_tags (ts : list pyval) :
  existsb is_health_tag (filter isinstance_str ts) = existsb is_health_tag ts.
Proof.
  induction ts as [|t ts IH]; [reflexivity|].
  destruct t; simpl; try exact IH.
  rewrite IH. reflexivity.
Qed.

Lemma has_health_tag_view (c c' : Cell) :
  selector_view c = selector_view c' -> has_health_tag c = has_health_tag c'.
Proof.
  unfold selector_view. intros H. injection H as Ht _.
  unfold has_health_tag.
  rewrite <- (existsb_health_string_tags (cell_tags c)).
  rewrite <- (existsb_health_string_tags (cell_tags c')).
  rewrite Ht. reflexivity.
Qed.

Lemma marker_match_view (c c' : Cell) :
  selector_view c = selector_view c' -> marker_match c = marker_match c'.
Proof.
  unfold selector_view. intros H. injection H as _ Hs.
  unfold marker_match, is_install_cell, contains_marker. rewrite Hs. reflexivity.
Qed.

(** C2: a document with at least one cell tagged as the health marker (in
    any case) has as cutoff the maximum index among the tagged cells, and the
    marker scan plays no part: the cutoff is the value the tag scan leaves,
    and every document with the same metadata, whatever its sources, gets
    the same cutoff. *)
Theorem tag_rule_cutoff (nb : Notebook) :
  (exists c, In c (cells nb) /\ has_health_tag c = true) ->
  exists k,
    select_cutoff nb = Ok k /\
    max_index_where has_health_tag (cells nb) k /\
    tag_pass (cells nb) 0 (-1) = Ok k /\
    (forall nb', map metadata (cells nb') = map metadata (cells nb) ->
                 select_cutoff nb' = Ok k).
Proof.
  intros Hex. exists (cutoff_of (cells nb)).
  destruct (cutoff_of_tagged _ Hex) as [E Hmax].
  split; [apply select_cutoff_eq|]. split; [exact Hmax|]. split.
  - rewrite tag_pass_spec, E. reflexivity.
  - intros nb' Hmeta. rewrite select_cutoff_eq. f_equal.
    assert (Hscan : scan_last has_health_tag (cells nb') 0 (-1) =
                    scan_last has_health_tag (cells nb) 0 (-1)).
    { apply (scan_last_congr has_health_tag metadata has_health_tag_metadata).
      exact Hmeta. }
    rewrite E. unfold cutoff_of. rewrite Hscan.
    destruct Hmax as [H0 _]. rewrite E in H0.
    destruct (Z.ltb_spec (scan_last has_health_tag (cells nb) 0 (-1)) 0); [lia|].
    cbv zeta.
    destruct (Z.ltb_spec (scan_last has_health_tag (cells nb) 0 (-1)) 0); [lia|].
    reflexivity.
Qed.

(** C3: a document with no health-tagged cell and at least one match of
    the content heuristic (a marker substring in a cell that is not a
    package-installation cell) has as cutoff the maximum index among the
    matching cells; package-installation cells never match. *)
Theorem marker_rule_cutoff (nb : Notebook) :
  (forall c, In c (cells nb) -> has_health_tag c = false) ->
  (exists c, In c (cells nb) /\ marker_match c = true) ->
  exists k,
    select_cutoff nb = Ok k /\
    max_index_where marker_match (cells nb) k /\
    (forall c, is_install_cell c = true -> marker_match c = false).
Proof.
  intros Hnone Hex. exists (scan_last marker_match (cells nb) 0 (-1)).
  pose proof (scan_last_found _ _ Hex) as Hmax.
  split; [|split; [exact Hmax|]].
  - rewrite select_cutoff_eq, (cutoff_of_untagged _ Hnone). cbv zeta.
    destruct Hmax as [H0 _].
    destruct (Z.ltb_spec (scan_last marker_match (cells nb) 0 (-1)) 0); [lia|].
    reflexivity.
  - intros c Hc. unfold marker_match. rewrite Hc. reflexivity.
Qed.

(** C4: a document with neither a health-tagged cell nor a match of the
    content heuristic has cutoff min(lastIndex, 19), lastIndex being the
    number of cells minus one; the empty document has cutoff -1 and its
    reduced document is the synthesis cell alone. *)
Theorem fallback_cutoff (nb : Notebook) :
  (forall c, In c (cells nb) -> has_health_tag c = false) ->
  (forall c, In c (cells nb) -> marker_match c = false) ->
  select_cutoff nb = Ok (Z.min (Z.of_nat (List.length (cells nb)) - 1) 19) /\
  (cells nb = [] ->
   select_cutoff nb = Ok (-1) /\
   build_subset nb (-1) = Ok (new_notebook [synthesis_cell])).
Proof.
  intros Htag Hmark. split.
  - rewrite select_cutoff_eq, (cutoff_of_untagged _ Htag).
    rewrite (scan_last_none _ _ Hmark). reflexivity.
  - intros Hempty. destruct nb as [cs]. simpl in Hempty. subst cs.
    split; reflexivity.
Qed.

(** ** The reduced document *)

Lemma py_index_nat {A : Type} (xs : list A) (a : nat) (x : A) :
  nth_error xs a = Some x -> py_index xs (Z.of_nat a) = Ok x.
Proof.
  intros Hn. unfold py_index.
  assert (Hlt : (a < List.length xs)%nat)
    by (apply nth_error_Some; rewrite Hn; discriminate).
  destruct (Z.ltb_spec (Z.of_nat a) 0) as [|_]; [lia|].
  destruct (Z.ltb_spec (Z.of_nat a) 0) as [|_]; [lia|].
  destruct (Z.leb_spec (Z.of_nat (List.length xs)) (Z.of_nat a)) as [|_]; [lia|].
  cbn [orb]. rewrite Nat2Z.id, Hn. reflexivity.
Qed.

Lemma py_index_last {A : Type} (xs : list A) (x : A) :
  py_index (xs ++ [x]) (-1) = Ok x.
Proof.
  unfold py_index. rewrite length_app. cbn [List.length].
  change (-1 <? 0) with true. cbv iota.
  destruct (Z.ltb_spec (-1 + Z.of_nat (List.length xs + 1)) 0) as [|_]; [lia|].
  destruct (Z.leb_spec (Z.of_nat (List.length xs + 1))
                       (-1 + Z.of_nat (List.length xs + 1))) as [|_]; [lia|].
  cbn [orb].
  replace (Z.to_nat (-1 + Z.of_nat (List.length xs + 1))) with (List.length xs) by lia.
  rewrite nth_error_app2 by lia. rewrite Nat.sub_diag. reflexivity.
Qed.

Lemma skipn_nth_error {A : Type} (xs : list A) :
  forall a x, nth_error xs a = Some x -> skipn a xs = x :: skipn (S a) xs.
Proof.
  induction xs as [|y xs IH]; intros [|a] x Hn; simpl in Hn; try discriminate.
  - injection Hn as <-. reflexivity.
  - change (skipn a xs = x :: skipn (S a) xs). apply IH. exact Hn.
Qed.

(** The loop visits the indices in order and keeps the cells that are not
    package-installation cells. *)
Lemma select_loop_spec (cs : list Cell) :
  forall n a selected, (a + n <= List.length cs)%nat ->
    select_loop cs (map (fun k => 0 + Z.of_nat k) (seq a n)) selected =
    Ok (selected ++ filter (fun c => negb (stripped_install_cell c))
                           (firstn n (skipn a cs))).
Proof.
  induction n as [|n IH]; intros a selected Hle.
  - simpl. rewrite app_nil_r. reflexivity.
  - cbn [seq map select_loop].
    destruct (nth_error cs a) as [c|] eqn:Hn.
    2:{ apply nth_error_None in Hn. lia. }
    rewrite Z.add_0_l, (py_index_nat _ _ _ Hn). cbn [rbind].
    rewrite (skipn_nth_error _ _ _ Hn). cbn [firstn filter].
    unfold stripped_install_cell at 1.
    destruct (PyString.startswith _ pip_install); cbn [negb].
    + apply IH. lia.
    + rewrite IH by lia. rewrite <- app_assoc. reflexivity.
Qed.

(** The selection loop never raises for a cutoff below the number of cells:
    building the subset is making and validating the notebook of the
    filtered prefix and the synthesis cell. *)
Lemma build_subset_spec (nb : Notebook) (k : Z) :
  k < Z.of_nat (List.length (cells nb)) ->
  build_subset nb k = v4_new_notebook (filtered_prefix nb k ++ [synthesis_cell]).
Proof.
  intros Hk. unfold build_subset, py_range.
  rewrite select_loop_spec by lia.
  cbn [rbind app skipn]. unfold filtered_prefix.
  replace (k + 1 - 0) with (k + 1) by lia. reflexivity.
Qed.

Lemma v4_new_notebook_ok (cs : list Cell) (nb : Notebook) :
  v4_new_notebook cs = Ok nb -> nb = new_notebook cs /\ validate (new_notebook cs) = Ok tt.
Proof.
  unfold v4_new_notebook. cbv zeta.
  destruct (validate (new_notebook cs)) as [[]|e]; cbn [rbind]; intros H;
    [|discriminate].
  injection H as <-. split; reflexivity.
Qed.

Lemma v4_new_notebook_valid (cs : list Cell) :
  validate (new_notebook cs) = Ok tt -> v4_new_notebook cs = Ok (new_notebook cs).
Proof. unfold v4_new_notebook. cbv zeta. intros ->. reflexivity. Qed.

Lemma v4_new_notebook_raises (cs : list Cell) (e : exn) :
  v4_new_notebook cs = Raise e <-> validate (new_notebook cs) = Raise e.
Proof.
  unfold v4_new_notebook. cbv zeta.
  destruct (validate (new_notebook cs)) as [[]|e']; cbn [rbind]; split; intros H;
    try discriminate; injection H as <-; reflexivity.
Qed.

(** What validation raises is an [Exception]. *)
Lemma validate_raises_exception (nb : Notebook) (e : exn) :
  validate nb = Raise e -> is_exception e = true.
Proof.
  unfold validate. destruct (forallb valid_cell (cells nb)); [discriminate|].
  intros H. injection H as <-. reflexivity.
Qed.

(** Whatever the indices, the loop only ever adds cells that are not
    package-installation cells. *)
Lemma select_loop_no_install (cs : list Cell) :
  forall idxs selected selected',
    select_loop cs idxs selected = Ok selected' ->
    Forall (fun c => stripped_install_cell c = false) selected ->
    Forall (fun c => stripped_install_cell c = false) selected'.
Proof.
  induction idxs as [|idx idxs IH]; intros selected selected' Hrun Hall.
  - simpl in Hrun. injection Hrun as <-. exact Hall.
  - cbn [select_loop] in Hrun.
    destruct (py_index cs idx) as [c|e]; cbn [rbind] in Hrun; [|discriminate].
    destruct (PyString.startswith (PyString.strip (join_source (source c))) pip_install)
      eqn:Hpip.
    + exact (IH _ _ Hrun Hall).
    + apply (IH _ _ Hrun). apply Forall_app. split; [exact Hall|].
      constructor; [exact Hpip | constructor].
Qed.

Lemma prefix_empty (s : string) : String.prefix "" s = true.
Proof. destruct s; reflexivity. Qed.

(** Trailing whitespace does not matter to a prefix that ends in a
    character that is not whitespace. *)
Lemma prefix_rstrip (t : string) :
  forall p, ends_in_non_space p = true ->
    String.prefix p (PyString.rstrip t) = String.prefix p t.
Proof.
  induction t as [|c t IH]; intros p Hp; [reflexivity|].
  destruct p as [|a p]; [discriminate|].
  cbn [PyString.rstrip].
  destruct p as [|b p].
  - cbn [ends_in_non_space] in Hp. apply negb_true_iff in Hp.
    destruct (PyString.rstrip t) as [|x r].
    + destruct (PyString.isspace c) eqn:Hc; cbn [String.prefix].
      * destruct (ascii_dec a c) as [->|_]; [congruence | reflexivity].
      * destruct (ascii_dec a c); [|reflexivity].
        rewrite !prefix_empty. reflexivity.
    + cbn [String.prefix]. destruct (ascii_dec a c); [|reflexivity].
      rewrite !prefix_empty. reflexivity.
  - assert (Hp' : ends_in_non_space (String b p) = true) by exact Hp.
    specialize (IH _ Hp').
    destruct (PyString.rstrip t) as [|x r].
    + destruct (PyString.isspace c); cbn [String.prefix];
        destruct (ascii_dec a c); try reflexivity; rewrite <- IH; reflexivity.
    + change (String.prefix (String a (String b p)) (String c (String x r)))
        with (if ascii_dec a c then String.prefix (String b p) (String x r) else false).
      change (String.prefix (String a (String b p)) (String c t))
        with (if ascii_dec a c then String.prefix (String b p) t else false).
      rewrite IH. reflexivity.
Qed.

(** The selector ([lstrip]) and the builder ([strip]) call the same cells
    package-installation cells. *)
Lemma install_tests_agree (c : Cell) :
  stripped_install_cell c = is_install_cell c.
Proof.
  unfold stripped_install_cell, is_install_cell, PyString.startswith, PyString.strip.
  apply prefix_rstrip. vm_compute. reflexivity.
Qed.

Lemma synthesis_cell_not_install : stripped_install_cell synthesis_cell = false.
Proof. vm_compute. reflexivity. Qed.

Lemma build_subset_no_install (nb subset_nb : Notebook) (k : Z) :
  build_subset nb k = Ok subset_nb ->
  Forall (fun c => stripped_install_cell c = false) (cells subset_nb).
Proof.
  unfold build_subset. intros Hrun.
  destruct (select_loop (cells nb) (py_range 0 (k + 1)) []) as [sel|e] eqn:Hsel;
    cbn [rbind] in Hrun; [|discriminate].
  destruct (v4_new_notebook_ok _ _ Hrun) as [-> _]. cbn [new_notebook cells].
  apply Forall_app. split.
  - exact (select_loop_no_install _ _ _ _ Hsel (Forall_nil _)).
  - constructor; [exact synthesis_cell_not_install | constructor].
Qed.

(** C7: a reduced document, whenever one is made, is the filtered prefix
    (cells 0..cutoff without the package-installation cells) followed by
    the synthesis cell: one cell more than the filtered prefix, the
    synthesis cell at the last position.  For every cutoff below the number
    of cells, which the selected cutoff always is, the reduced document is
    made exactly when these cells pass the validation of the notebook
    library, and the validation error is raised otherwise. *)
Theorem reduced_is_prefix_plus_synthesis (nb : Notebook) :
  (exists k, select_cutoff nb = Ok k /\ k < Z.of_nat (List.length (cells nb))) /\
  (forall k, k < Z.of_nat (List.length (cells nb)) ->
     (forall subset_nb,
         build_subset nb k = Ok subset_nb ->
         cells subset_nb = filtered_prefix nb k ++ [synthesis_cell] /\
         List.length (cells subset_nb) = S (List.length (filtered_prefix nb k)) /\
         py_index (cells subset_nb) (-1) = Ok synthesis_cell) /\
     (validate (new_notebook (filtered_prefix nb k ++ [synthesis_cell])) = Ok tt ->
      exists subset_nb, build_subset nb k = Ok subset_nb) /\
     (forall e,
         validate (new_notebook (filtered_prefix nb k ++ [synthesis_cell])) = Raise e ->
         build_subset nb k = Raise e)).
Proof.
  split.
  - exists (cutoff_of (cells nb)). split; [apply select_cutoff_eq|].
    apply cutoff_of_bounds.
  - intros k Hk. rewrite (build_subset_spec _ _ Hk). split; [|split].
    + intros subset_nb Hb. destruct (v4_new_notebook_ok _ _ Hb) as [-> _].
      cbn [new_notebook cells]. split; [reflexivity|]. split.
      * rewrite length_app. cbn [List.length]. lia.
      * apply py_index_last.
    + intros Hv. eexists. exact (v4_new_notebook_valid _ Hv).
    + intros e He. apply v4_new_notebook_raises. exact He.
Qed.

(** ** The classification buffer *)

Lemma append_nil_r (s : string) : (s ++ "")%string = s.
Proof. induction s as [|c s IH]; simpl; [reflexivity | rewrite IH; reflexivity]. Qed.

Lemma append_assoc (s1 s2 s3 : string) :
  ((s1 ++ s2) ++ s3)%string = (s1 ++ (s2 ++ s3))%string.
Proof. induction s1 as [|c s1 IH]; simpl; [reflexivity | rewrite IH; reflexivity]. Qed.

Lemma join_empty_cons (s : string) (parts : list string) :
  PyString.join "" (s :: parts) = (s ++ PyString.join "" parts)%string.
Proof.
  unfold PyString.join. destruct parts as [|p parts]; simpl.
  - symmetry. apply append_nil_r.
  - reflexivity.
Qed.

Lemma str_items_from_strs (lines : list string) :
  forall i, str_items_from i (map PyStr lines) = Ok lines.
Proof.
  induction lines as [|l lines IH]; intros i; simpl; [reflexivity|].
  rewrite IH. reflexivity.
Qed.

Lemma str_items_strs (lines : list string) :
  str_items (map PyStr lines) = Ok lines.
Proof. apply str_items_from_strs. Qed.

Lemma output_type_is_false (out : Output) (name : string) :
  output_type out <> Some name -> output_type_is out name = false.
Proof.
  unfold output_type_is. destruct (output_type out) as [ty|]; [|reflexivity].
  intros Hne. apply String.eqb_neq. intros ->. apply Hne. reflexivity.
Qed.

Lemma output_step_contributes (out : Output) (s : string) :
  contributes out s ->
  forall stdout_text, output_step stdout_text out = Ok (stdout_text ++ s)%string.
Proof.
  intros Hc stdout_text. unfold output_step, output_type_is.
  destruct Hc as [s Hty Htx | Hty Htx | d s Hr Hd Hk | d Hr Hd Hk | Hr Hd
                  | lines Hty Htb | Hty Htb | H1 H2 H3 H4].
  - rewrite Hty, Htx. reflexivity.
  - rewrite Hty, Htx. reflexivity.
  - destruct Hr as [Hty|Hty]; rewrite Hty, Hd; cbn; rewrite Hk; reflexivity.
  - destruct Hr as [Hty|Hty]; rewrite Hty, Hd; cbn; rewrite Hk;
      rewrite append_nil_r; reflexivity.
  - destruct Hr as [Hty|Hty]; rewrite Hty, Hd; cbn; rewrite append_nil_r; reflexivity.
  - rewrite Hty, Htb. cbn. unfold py_join. rewrite str_items_strs. reflexivity.
  - rewrite Hty, Htb. cbn. rewrite append_nil_r. reflexivity.
  - fold (output_type_is out "stream"). fold (output_type_is out "execute_result").
    fold (output_type_is out "display_data"). fold (output_type_is out "error").
    rewrite !output_type_is_false by assumption. cbn.
    rewrite append_nil_r. reflexivity.
Qed.

Lemma collect_outputs_spec (outs : list Output) (parts : list string) :
  Forall2 contributes outs parts ->
  forall stdout_text,
    collect_outputs outs stdout_text = Ok (stdout_text ++ PyString.join "" parts)%string.
Proof.
  induction 1 as [|out s outs parts Hc _ IH]; intros stdout_text.
  - simpl. rewrite append_nil_r. reflexivity.
  - cbn [collect_outputs]. rewrite (output_step_contributes _ _ Hc). cbn [rbind].
    rewrite IH, join_empty_cons, append_assoc. reflexivity.
Qed.

(** C8: the classification buffer is built from the outputs of the last
    cell only, and is the concatenation, in the order the output records
    were recorded, of what each contributes: the text of a stream output,
    the text/plain payload of a rich result or display output that has one,
    the traceback lines of an error joined by newlines, and nothing for any
    other record. *)
Theorem buffer_is_concatenation (cs : list Cell) (c : Cell) (parts : list string) :
  Forall2 contributes (get_default (outputs c) []) parts ->
  inspect_last_cell (mkNotebook (cs ++ [c])) = Ok (PyString.join "" parts).
Proof.
  intros Hparts. unfold inspect_last_cell. cbn [cells].
  rewrite py_index_last. cbn [rbind].
  rewrite (collect_outputs_spec _ _ Hparts). reflexivity.
Qed.

(** ** Non-string tags *)

Lemma tag_pass_total (cs : list Cell) (i last : Z) :
  exists k, tag_pass cs i last = Ok k.
Proof. eexists. apply tag_pass_spec. Qed.

(** C10: the tag rule only looks at the tags that are strings: a value
    that is not a string is never asked for its lower-case form and never
    matches, the tag scan never raises, and the cutoff is the same for two
    documents that agree on the string tags and the source of each cell. *)
Theorem tag_rule_ignores_non_string_tags (nb nb' : Notebook) :
  (forall t, isinstance_str t = false -> tag_is_health t = Ok false) /\
  (exists k, tag_pass (cells nb) 0 (-1) = Ok k) /\
  (map (fun c => filter isinstance_str (cell_tags c)) (cells nb) =
   map (fun c => filter isinstance_str (cell_tags c)) (cells nb') ->
   tag_pass (cells nb) 0 (-1) = tag_pass (cells nb') 0 (-1)) /\
  (map selector_view (cells nb) = map selector_view (cells nb') ->
   select_cutoff nb = select_cutoff nb').
Proof.
  split; [|split; [|split]].
  - intros t Ht. unfold tag_is_health. rewrite Ht. reflexivity.
  - apply tag_pass_total.
  - intros Htags. rewrite !tag_pass_spec. f_equal.
    apply (scan_last_congr has_health_tag
             (fun c => filter isinstance_str (cell_tags c))); [|exact Htags].
    intros c c' H. unfold has_health_tag.
    rewrite <- (existsb_health_string_tags (cell_tags c)).
    rewrite <- (existsb_health_string_tags (cell_tags c')).
    rewrite H. reflexivity.
  - intros Hview. rewrite !select_cutoff_eq. f_equal. unfold cutoff_of.
    rewrite (scan_last_congr has_health_tag selector_view has_health_tag_view
               _ _ Hview).
    assert (Hlen : List.length (cells nb) = List.length (cells nb')).
    { rewrite <- (length_map selector_view (cells nb)), Hview.
      apply length_map. }
    rewrite Hlen.
    destruct (scan_last has_health_tag (cells nb') 0 (-1) <? 0); [|reflexivity].
    rewrite (scan_last_congr marker_match selector_view marker_match_view
               _ _ Hview).
    reflexivity.
Qed.

(** ** The runner as a whole *)

Ltac no_db :=
  unfold no_db_event in *; cbn [app];
  repeat first [ assumption
               | apply Forall_nil
               | apply Forall_cons; [reflexivity|]
               | apply Forall_app; split ].

Lemma audit_block_exact (env : Env) :
  audit_block env = (audit_result env, audit_effects env).
Proof.
  unfold audit_block, audit_result, audit_effects, bind, read_notebook, lift,
    execute_notebook, ret.
  destruct (nbformat_read env NOTEBOOK_PATH 4) as [nb|e]; [|reflexivity].
  cbn [rbind]. rewrite select_cutoff_eq. cbn [rbind].
  destruct (build_subset nb (cutoff_of (cells nb))) as [subset_nb|e]; [|reflexivity].
  cbn [rbind app].
  destruct (nbclient_execute env subset_nb 900 true) as [executed|e]; [|reflexivity].
  cbn [rbind app].
  destruct (inspect_last_cell executed) as [stdout_text|e]; reflexivity.
Qed.

Lemma run_health_audit_notebook_exact (env : Env) :
  run_health_audit_notebook env =
  (runner_result env,
   [EvLockAcquire] ++ audit_effects env ++ [EvLockRelease] ++ failure_report env).
Proof.
  unfold run_health_audit_notebook, try_except, bind, with_lock, print, ret,
    runner_result, failure_report.
  rewrite audit_block_exact.
  destruct (audit_result env) as [persisted|e]; [|destruct (is_exception e)];
    cbn [app].
  - rewrite app_nil_r. reflexivity.
  - rewrite <- app_assoc. reflexivity.
  - reflexivity.
Qed.

Lemma audit_effects_no_db (env : Env) : no_db_event (audit_effects env).
Proof.
  unfold audit_effects.
  destruct (nbformat_read env NOTEBOOK_PATH 4) as [nb|e]; [|no_db].
  destruct (build_subset nb (cutoff_of (cells nb))); no_db.
Qed.

Lemma runner_trace_no_db (env : Env) :
  no_db_event (snd (run_health_audit_notebook env)).
Proof.
  rewrite run_health_audit_notebook_exact. cbn [snd].
  generalize (audit_effects env) (audit_effects_no_db env). intros eff Heff.
  unfold failure_report.
  destruct (audit_result env) as [p|e]; [|destruct (is_exception e)]; no_db.
Qed.




(** C6: a reduced document, for whatever cutoff it was made, holds no cell
    whose stripped source starts with the package-installation directive,
    and so does every notebook a run hands to the engine.  For the selected
    cutoff the reduced document is made whenever its cells pass the
    validation of the notebook library. *)
Theorem reduced_has_no_install_cell (env : Env) :
  (forall nb k subset_nb,
      build_subset nb k = Ok subset_nb ->
      Forall (fun c => stripped_install_cell c = false) (cells subset_nb)) /\
  (forall subset_nb timeout allow_errors,
      In (EvNbExecute subset_nb timeout allow_errors)
         (snd (run_health_audit_notebook env)) ->
      Forall (fun c => stripped_install_cell c = false) (cells subset_nb)) /\
  (forall nb, exists k,
      select_cutoff nb = Ok k /\
      (validate (reduced_document nb) = Ok tt ->
       build_subset nb k = Ok (reduced_document nb))).
Proof.
  split; [|split].
  - intros nb k subset_nb Hb. exact (build_subset_no_install _ _ _ Hb).
  - intros subset_nb timeout allow_errors.
    rewrite run_health_audit_notebook_exact. cbn [snd].
    unfold audit_effects, failure_report. intros Hin.
    destruct (nbformat_read env NOTEBOOK_PATH 4) as [nb|e0].
    + destruct (build_subset nb (cutoff_of (cells nb))) as [built|e1] eqn:Hb.
      * assert (Heq : subset_nb = built).
        { destruct (audit_result env) as [p|e2]; [|destruct (is_exception e2)];
            cbn in Hin;
            repeat (destruct Hin as [Hin|Hin]; [try discriminate|]);
            try contradiction; try (injection Hin as <- _ _; reflexivity). }
        subst built. exact (build_subset_no_install _ _ _ Hb).
      * exfalso.
        destruct (audit_result env) as [p|e2]; [|destruct (is_exception e2)];
          cbn in Hin;
          repeat (destruct Hin as [Hin|Hin]; [discriminate|]); contradiction.
    + exfalso.
      destruct (audit_result env) as [p|e2]; [|destruct (is_exception e2)];
        cbn in Hin;
        repeat (destruct Hin as [Hin|Hin]; [discriminate|]); contradiction.
  - intros nb. exists (cutoff_of (cells nb)). split; [apply select_cutoff_eq|].
    intros Hv. rewrite build_subset_spec by apply cutoff_of_bounds.
    exact (v4_new_notebook_valid _ Hv).
Qed.

(** ** The endpoint *)




(** ** The success flag *)

(** Once the block under the lock completes, the function returns true,
    whether or not the marker was seen. *)
Lemma run_true_whatever_persisted (env : Env) (persisted : bool) :
  audit_result env = Ok persisted ->
  fst (run_health_audit_notebook env) = Ok true.
Proof.
  intros Hres. rewrite run_health_audit_notebook_exact. cbn [fst].
  unfold runner_result. rewrite Hres. reflexivity.
Qed.

(** C1: a run that completes without exception, whose synthesis cell
    printed the failure marker and not the success marker: the buffer does
    not contain the success marker, [persisted] is false, and the function
    returns true all the same. *)
Theorem success_flag_ignores_marker :
  exists subset_nb executed stdout_text,
    build_subset doc_plain 1 = Ok subset_nb /\
    nbclient_execute failed_audit_env subset_nb 900 true = Ok executed /\
    inspect_last_cell executed = Ok stdout_text /\
    PyString.contains success_marker stdout_text = false /\
    audit_result failed_audit_env = Ok false /\
    fst (run_health_audit_notebook failed_audit_env) = Ok true.
Proof.
  eexists _, _, _.
  split; [vm_compute; reflexivity|].
  split; [vm_compute; reflexivity|].
  split; [vm_compute; reflexivity|].
  split; [vm_compute; reflexivity|].
  split; [vm_compute; reflexivity|].
  apply (run_true_whatever_persisted _ false). vm_compute. reflexivity.
Qed.

(** ** The scenarios of the specification *)

Example doc5_cutoff : select_cutoff doc5 = Ok 2.
Proof. vm_compute. reflexivity. Qed.

Example doc25_cutoff :
  select_cutoff doc25 = Ok 7 /\
  exists subset_nb,
    build_subset doc25 7 = Ok subset_nb /\ List.length (cells subset_nb) = 9%nat.
Proof. split; [|eexists; split]; vm_compute; reflexivity. Qed.

Example doc_plain_cutoff : select_cutoff doc_plain = Ok 1.
Proof. vm_compute. reflexivity. Qed.

Example long_plain_cutoff :
  select_cutoff (mkNotebook (repeat (code_cell "pass") 30)) = Ok 19.
Proof. vm_compute. reflexivity. Qed.

Example install_cell_with_marker_is_skipped :
  select_cutoff (mkNotebook [code_cell "  %pip install x # run_health_audit(";
                             code_cell "z = 0"]) = Ok 1.
Proof. vm_compute. reflexivity. Qed.

Example marker_interleaved_is_seen :
  audit_result persisted_env = Ok true /\
  fst (run_health_audit_notebook persisted_env) = Ok true.
Proof. split; vm_compute; reflexivity. Qed.

Example timeout_is_false :
  fst (run_health_audit_notebook timeout_env) = Ok false.
Proof. vm_compute. reflexivity. Qed.

Example missing_file_is_false :
  fst (run_health_audit_notebook missing_file_env) = Ok false.
Proof. vm_compute. reflexivity. Qed.

Example bad_output_is_false :
  fst (run_health_audit_notebook bad_output_env) = Ok false.
Proof. vm_compute. reflexivity. Qed.

(** A tag that is not a string: the reduced document fails validation, the
    engine is not called, and the runner returns false. *)
Example invalid_tag_is_false :
  fst (run_health_audit_notebook invalid_tag_env) = Ok false /\
  audit_effects invalid_tag_env = [EvNbRead NOTEBOOK_PATH 4].
Proof. split; vm_compute; reflexivity. Qed.

Example string_tags_are_valid :
  exists subset_nb,
    build_subset doc5_string_tags 2 = Ok subset_nb /\
    List.length (cells subset_nb) = 3%nat.
Proof. eexists. split; vm_compute; reflexivity. Qed.

(** ** The theorems at work on the scenarios *)

Lemma tag_rule_cutoff_witness :
  (exists c, In c (cells doc5) /\ has_health_tag c = true) /\
  exists k,
    select_cutoff doc5 = Ok k /\
    max_index_where has_health_tag (cells doc5) k /\
    tag_pass (cells doc5) 0 (-1) = Ok k /\
    (forall nb', map metadata (cells nb') = map metadata (cells doc5) ->
                 select_cutoff nb' = Ok k).
Proof.
  assert (H : exists c, In c (cells doc5) /\ has_health_tag c = true).
  { exists (tagged_cell [PyInt 3; PyStr "UI:Health"] "def run_health_audit(l, c, r): pass").
    split; [simpl; auto | reflexivity]. }
  split; [exact H | exact (tag_rule_cutoff doc5 H)].
Defined.

Lemma marker_rule_cutoff_witness :
  (forall c, In c (cells doc25) -> has_health_tag c = false) /\
  (exists c, In c (cells doc25) /\ marker_match c = true) /\
  exists k,
    select_cutoff doc25 = Ok k /\
    max_index_where marker_match (cells doc25) k /\
    (forall c, is_install_cell c = true -> marker_match c = false).
Proof.
  assert (H1 : forall c, In c (cells doc25) -> has_health_tag c = false).
  { intros c Hc. apply negb_true_iff. revert c Hc.
    apply (proj1 (forallb_forall (fun c => negb (has_health_tag c)) (cells doc25))).
    vm_compute. reflexivity. }
  assert (H2 : exists c, In c (cells doc25) /\ marker_match c = true).
  { exists (code_cell "listings = pd.read_csv('listings.csv')").
    split; [simpl; auto | vm_compute; reflexivity]. }
  split; [exact H1|]. split; [exact H2 | exact (marker_rule_cutoff doc25 H1 H2)].
Defined.

Lemma fallback_cutoff_witness :
  ((forall c, In c (cells doc_plain) -> has_health_tag c = false) /\
   (forall c, In c (cells doc_plain) -> marker_match c = false) /\
   select_cutoff doc_plain = Ok (Z.min (Z.of_nat (List.length (cells doc_plain)) - 1) 19)) /\
  (cells (mkNotebook []) = [] /\
   select_cutoff (mkNotebook []) = Ok (-1) /\
   build_subset (mkNotebook []) (-1) = Ok (new_notebook [synthesis_cell])).
Proof.
  assert (H1 : forall c, In c (cells doc_plain) -> has_health_tag c = false).
  { intros c [<- | [<- | []]]; reflexivity. }
  assert (H2 : forall c, In c (cells doc_plain) -> marker_match c = false).
  { intros c [<- | [<- | []]]; vm_compute; reflexivity. }
  split.
  - split; [exact H1|]. split; [exact H2|].
    exact (proj1 (fallback_cutoff doc_plain H1 H2)).
  - split; [reflexivity|].
    apply (proj2 (fallback_cutoff (mkNotebook [])
                    (fun c (H : In c []) => match H with end)
                    (fun c (H : In c []) => match H with end))).
    reflexivity.
Defined.

Lemma reduced_has_no_install_cell_witness :
  build_subset doc5_string_tags 2 = Ok (reduced_document doc5_string_tags) /\
  Forall (fun c => stripped_install_cell c = false)
         (cells (reduced_document doc5_string_tags)).
Proof.
  assert (H : build_subset doc5_string_tags 2 = Ok (reduced_document doc5_string_tags))
    by (vm_compute; reflexivity).
  split; [exact H|].
  exact (proj1 (reduced_has_no_install_cell persisted_env) doc5_string_tags 2 _ H).
Defined.

Lemma reduced_is_prefix_plus_synthesis_witness :
  2 < Z.of_nat (List.length (cells doc5_string_tags)) /\
  build_subset doc5_string_tags 2 = Ok (reduced_document doc5_string_tags) /\
  cells (reduced_document doc5_string_tags) =
  filtered_prefix doc5_string_tags 2 ++ [synthesis_cell] /\
  List.length (cells (reduced_document doc5_string_tags)) =
  S (List.length (filtered_prefix doc5_string_tags 2)) /\
  py_index (cells (reduced_document doc5_string_tags)) (-1) = Ok synthesis_cell.
Proof.
  assert (Hk : 2 < Z.of_nat (List.length (cells doc5_string_tags))) by (simpl; lia).
  assert (Hb : build_subset doc5_string_tags 2 = Ok (reduced_document doc5_string_tags))
    by (vm_compute; reflexivity).
  split; [exact Hk|]. split; [exact Hb|].
  exact (proj1 (proj2 (reduced_is_prefix_plus_synthesis doc5_string_tags) 2 Hk) _ Hb).
Defined.

Lemma buffer_is_concatenation_witness :
  Forall2 contributes (get_default (outputs mixed_cell) []) mixed_parts /\
  inspect_last_cell (mkNotebook (cells doc_plain ++ [mixed_cell])) =
  Ok (PyString.join "" mixed_parts).
Proof.
  assert (H : Forall2 contributes (get_default (outputs mixed_cell) []) mixed_parts).
  { cbn [mixed_cell outputs get_default]. unfold mixed_outputs, mixed_parts.
    repeat first [apply Forall2_cons | apply Forall2_nil].
    - apply stream_text; reflexivity.
    - apply rich_plain_text with (d := [("text/html", PyStr "<b>1</b>");
                                        ("text/plain", PyStr "1")]);
        [left; reflexivity | reflexivity | reflexivity].
    - apply rich_without_plain_text with (d := [("image/png", PyStr "iVBOR")]);
        [right; reflexivity | reflexivity | reflexivity].
    - apply (error_traceback _ ["Traceback"; "NameError"]); reflexivity.
    - apply other_type; discriminate.
    - apply stream_text; reflexivity. }
  split; [exact H | exact (buffer_is_concatenation (cells doc_plain) mixed_cell _ H)].
Defined.





Lemma tag_rule_ignores_non_string_tags_witness :
  (isinstance_str (PyInt 3) = false /\ tag_is_health (PyInt 3) = Ok false) /\
  (map (fun c => filter isinstance_str (cell_tags c)) (cells doc5) =
   map (fun c => filter isinstance_str (cell_tags c)) (cells doc5_string_tags) /\
   tag_pass (cells doc5) 0 (-1) = tag_pass (cells doc5_string_tags) 0 (-1)) /\
  (map selector_view (cells doc5) = map selector_view (cells doc5_string_tags) /\
   select_cutoff doc5 = select_cutoff doc5_string_tags).
Proof.
  destruct (tag_rule_ignores_non_string_tags doc5 doc5_string_tags)
    as [Hnon [_ [Htags Hview]]].
  assert (H1 : isinstance_str (PyInt 3) = false) by reflexivity.
  assert (H2 : map (fun c => filter isinstance_str (cell_tags c)) (cells doc5) =
               map (fun c => filter isinstance_str (cell_tags c)) (cells doc5_string_tags))
    by reflexivity.
  assert (H3 : map selector_view (cells doc5) = map selector_view (cells doc5_string_tags))
    by reflexivity.
  split; [split; [exact H1 | exact (Hnon _ H1)]|].
  split; [split; [exact H2 | exact (Htags H2)]|].
  split; [exact H3 | exact (Hview H3)].
Defined.

(** ** Effects of a run *)


Lemma run_and_get_health_trace (env : Env) :
  snd (run_and_get_health env) =
  snd (run_health_audit_notebook env) ++ storage_effects env.
Proof.
  unfold run_and_get_health, bind, storage_effects.
  destruct (run_health_audit_notebook env) as [[[|]|e0] tr1]; cbn [fst snd negb].
  - unfold try_except, bind, db_connect, fetch_latest_health. cbv beta iota.
    destruct (duckdb_connect env DATABASE_PATH) as [con|e].
    + destruct (health_checks con) as [rows|e].
      * destruct (option_map row_tuple (latest_row rows)) as [[|v row]|]; reflexivity.
      * destruct (is_exception e); cbn; rewrite ?app_nil_r; reflexivity.
    + destruct (is_exception e); cbn; rewrite ?app_nil_r; reflexivity.
  - reflexivity.
  - rewrite app_nil_r. reflexivity.
Qed.

(** X5: the effects of the endpoint are those of the runner followed by
    the database access: nothing unless the runner returned true, else one
    connection to the database file and, when the connection succeeded, one
    query.  The runner itself never touches the database and has released
    the lock by then. *)
Theorem endpoint_effects (env : Env) :
  snd (run_and_get_health env) =
  snd (run_health_audit_notebook env) ++ storage_effects env /\
  no_db_event (snd (run_health_audit_notebook env)) /\
  In EvLockRelease (snd (run_health_audit_notebook env)).
Proof.
  split; [apply run_and_get_health_trace|]. split; [apply runner_trace_no_db|].
  rewrite run_health_audit_notebook_exact. cbn [snd].
  apply in_or_app. right. apply in_or_app. right. left. reflexivity.
Qed.

(** ** More on the cutoff and the reduced document *)

Lemma cutoff_of_nonneg (cs : list Cell) :
  cs <> [] -> 0 <= cutoff_of cs.
Proof.
  intros Hne. unfold cutoff_of.
  assert (Hlen : 1 <= Z.of_nat (List.length cs))
    by (destruct cs; [contradiction | cbn [List.length]; lia]).
  destruct (Z.ltb_spec
              (if scan_last has_health_tag cs 0 (-1) <? 0
               then scan_last marker_match cs 0 (scan_last has_health_tag cs 0 (-1))
               else scan_last has_health_tag cs 0 (-1)) 0); lia.
Qed.

Lemma filtered_prefix_length (nb : Notebook) (k : Z) :
  Z.of_nat (List.length (filtered_prefix nb k)) <= Z.max 0 (k + 1).
Proof.
  unfold filtered_prefix.
  pose proof (filter_length_le (fun c => negb (stripped_install_cell c))
                (firstn (Z.to_nat (k + 1)) (cells nb))) as Hf.
  pose proof (firstn_le_length (Z.to_nat (k + 1)) (cells nb)) as Hn.
  lia.
Qed.

(** X2: the cutoff is -1 for the empty document and an index of the
    document otherwise.  The selection loop then never raises IndexError:
    making the reduced document is making and validating the notebook of
    the filtered prefix and the synthesis cell, and a reduced document that
    was made has at least one cell (the synthesis cell) and at most
    cutoff + 2. *)
Theorem cutoff_is_valid_index (nb : Notebook) :
  exists k,
    select_cutoff nb = Ok k /\
    -1 <= k < Z.of_nat (List.length (cells nb)) /\
    (k = -1 <-> cells nb = []) /\
    select_loop (cells nb) (py_range 0 (k + 1)) [] = Ok (filtered_prefix nb k) /\
    build_subset nb k = v4_new_notebook (filtered_prefix nb k ++ [synthesis_cell]) /\
    (forall subset_nb,
        build_subset nb k = Ok subset_nb ->
        1 <= Z.of_nat (List.length (cells subset_nb)) <= k + 2).
Proof.
  exists (cutoff_of (cells nb)).
  pose proof (cutoff_of_bounds (cells nb)) as Hb.
  split; [apply select_cutoff_eq|]. split; [exact Hb|]. split; [|split; [|split]].
  - split.
    + intros Hk. destruct (cells nb) as [|c cs] eqn:E; [reflexivity|].
      assert (Hne : c :: cs <> []) by discriminate.
      pose proof (cutoff_of_nonneg _ Hne). lia.
    + intros ->. reflexivity.
  - unfold py_range. rewrite select_loop_spec by lia.
    cbn [app skipn]. unfold filtered_prefix.
    replace (cutoff_of (cells nb) + 1 - 0) with (cutoff_of (cells nb) + 1) by lia.
    reflexivity.
  - apply build_subset_spec. apply Hb.
  - intros subset_nb Hbuild.
    rewrite build_subset_spec in Hbuild by apply Hb.
    destruct (v4_new_notebook_ok _ _ Hbuild) as [-> _]. cbn [new_notebook cells].
    rewrite length_app. cbn [List.length].
    pose proof (filtered_prefix_length nb (cutoff_of (cells nb))). lia.
Qed.

(** X10: when neither rule finds a cell, the cutoff is at most 19, and a
    reduced document that was made has at most 21 cells, however long the
    document is. *)
Theorem fallback_runs_at_most_twenty_cells (nb : Notebook) :
  (forall c, In c (cells nb) -> has_health_tag c = false) ->
  (forall c, In c (cells nb) -> marker_match c = false) ->
  exists k,
    select_cutoff nb = Ok k /\ k <= 19 /\
    (forall subset_nb,
        build_subset nb k = Ok subset_nb ->
        (List.length (cells subset_nb) <= 21)%nat).
Proof.
  intros Htag Hmark.
  exists (cutoff_of (cells nb)).
  assert (Hk : cutoff_of (cells nb) = Z.min (Z.of_nat (List.length (cells nb)) - 1) 19).
  { rewrite (cutoff_of_untagged _ Htag). rewrite (scan_last_none _ _ Hmark).
    reflexivity. }
  split; [apply select_cutoff_eq|]. split; [lia|].
  intros subset_nb Hbuild.
  rewrite build_subset_spec in Hbuild by apply cutoff_of_bounds.
  destruct (v4_new_notebook_ok _ _ Hbuild) as [-> _]. cbn [new_notebook cells].
  rewrite length_app. cbn [List.length].
  pose proof (filtered_prefix_length nb (cutoff_of (cells nb))). lia.
Qed.

(** X1: the selector tests the source after [lstrip], the builder after
    [strip]; the two tests single out the same cells, so that a cell that
    matched a marker is never dropped from the reduced document. *)
Theorem install_cell_tests_agree (c : Cell) :
  stripped_install_cell c = is_install_cell c /\
  (marker_match c = true -> stripped_install_cell c = false).
Proof.
  split; [apply install_tests_agree|].
  rewrite install_tests_agree. unfold marker_match.
  destruct (is_install_cell c); [discriminate | reflexivity].
Qed.

Lemma scan_last_app (P : Cell -> bool) (cs extra : list Cell) :
  forall i last,
    scan_last P (cs ++ extra) i last =
    scan_last P extra (i + Z.of_nat (List.length cs)) (scan_last P cs i last).
Proof.
  induction cs as [|c cs IH]; intros i last; cbn [app scan_last List.length].
  - rewrite Z.add_0_r. reflexivity.
  - rewrite IH. f_equal. lia.
Qed.

Lemma scan_last_app_none (P : Cell -> bool) (cs extra : list Cell) (i last : Z) :
  (forall c, In c extra -> P c = false) ->
  scan_last P (cs ++ extra) i last = scan_last P cs i last.
Proof.
  intros Hnone. rewrite scan_last_app. apply scan_last_none. exact Hnone.
Qed.

Lemma filtered_prefix_app (cs extra : list Cell) (k : Z) :
  k < Z.of_nat (List.length cs) ->
  filtered_prefix (mkNotebook (cs ++ extra)) k = filtered_prefix (mkNotebook cs) k.
Proof.
  intros Hk. unfold filtered_prefix. cbn [cells].
  rewrite firstn_app.
  replace (Z.to_nat (k + 1) - List.length cs)%nat with 0%nat by lia.
  cbn [firstn]. rewrite app_nil_r. reflexivity.
Qed.

(** X7: when the cutoff comes from a tag or from a marker, cells added
    after the document that carry neither change nothing: the cutoff and
    the reduced document are the same. *)
Theorem trailing_cells_do_not_matter (cs extra : list Cell) :
  (exists c, In c cs /\ (has_health_tag c = true \/ marker_match c = true)) ->
  (forall c, In c extra -> has_health_tag c = false /\ marker_match c = false) ->
  select_cutoff (mkNotebook (cs ++ extra)) = select_cutoff (mkNotebook cs) /\
  (forall k, select_cutoff (mkNotebook cs) = Ok k ->
             build_subset (mkNotebook (cs ++ extra)) k = build_subset (mkNotebook cs) k).
Proof.
  intros [c [Hin Hc]] Hextra.
  assert (Ht : forall c, In c extra -> has_health_tag c = false)
    by (intros c' Hc'; apply Hextra; exact Hc').
  assert (Hm : forall c, In c extra -> marker_match c = false)
    by (intros c' Hc'; apply Hextra; exact Hc').
  assert (Hcut : cutoff_of (cs ++ extra) = cutoff_of cs).
  { unfold cutoff_of.
    rewrite (scan_last_app_none has_health_tag cs extra 0 (-1) Ht).
    rewrite (scan_last_app_none marker_match cs extra 0 _ Hm).
    set (tagged := scan_last has_health_tag cs 0 (-1)).
    assert (Hfound : 0 <= (if tagged <? 0 then scan_last marker_match cs 0 tagged
                           else tagged)).
    { destruct (Z.ltb_spec tagged 0) as [Hneg|Hpos]; [|exact Hpos].
      pose proof (scan_last_bounds has_health_tag cs 0 (-1) ltac:(lia)) as Hb.
      fold tagged in Hb. replace tagged with (-1) by lia.
      destruct (scan_last_spec has_health_tag cs 0 (-1) ltac:(lia))
        as [[_ Hnone] | [Hle _]]; [|fold tagged in Hle; lia].
      destruct Hc as [Hc|Hc]; [rewrite (Hnone c Hin) in Hc; discriminate|].
      apply (scan_last_found marker_match cs). exists c. split; assumption. }
    destruct (Z.ltb_spec (if tagged <? 0 then scan_last marker_match cs 0 tagged
                          else tagged) 0); [lia | reflexivity]. }
  split.
  - rewrite !select_cutoff_eq. cbn [cells]. rewrite Hcut. reflexivity.
  - intros k Hk. rewrite select_cutoff_eq in Hk. injection Hk as <-. cbn [cells].
    pose proof (cutoff_of_bounds cs) as Hb.
    rewrite !build_subset_spec.
    + rewrite filtered_prefix_app by lia. reflexivity.
    + cbn [cells]. lia.
    + cbn [cells]. rewrite length_app. lia.
Qed.

Lemma firstn_S_nth_error {A : Type} (xs : list A) :
  forall n x, nth_error xs n = Some x -> firstn (S n) xs = firstn n xs ++ [x].
Proof.
  induction xs as [|y xs IH]; intros [|n] x Hn; simpl in Hn; try discriminate.
  - injection Hn as <-. reflexivity.
  - change (y :: firstn (S n) xs = y :: (firstn n xs ++ [x])).
    rewrite (IH n x Hn). reflexivity.
Qed.

(** X8: under the marker rule the cell at the cutoff is never filtered
    out: in a reduced document that was made it is the cell right before
    the synthesis cell. *)
Theorem marker_cutoff_cell_is_executed (nb : Notebook) :
  (forall c, In c (cells nb) -> has_health_tag c = false) ->
  (exists c, In c (cells nb) /\ marker_match c = true) ->
  exists k c,
    select_cutoff nb = Ok k /\
    nth_error (cells nb) (Z.to_nat k) = Some c /\
    marker_match c = true /\
    (forall subset_nb,
        build_subset nb k = Ok subset_nb ->
        exists before, cells subset_nb = before ++ [c; synthesis_cell]).
Proof.
  intros Hnone Hex.
  destruct (scan_last_found _ _ Hex) as [H0 [[c [Hn Hc]] _]].
  set (k := scan_last marker_match (cells nb) 0 (-1)) in *.
  assert (Hk : cutoff_of (cells nb) = k).
  { rewrite (cutoff_of_untagged _ Hnone). cbv zeta. fold k.
    destruct (Z.ltb_spec k 0); [lia | reflexivity]. }
  exists k, c.
  split; [rewrite select_cutoff_eq, Hk; reflexivity|].
  split; [exact Hn|]. split; [exact Hc|].
  intros subset_nb Hbuild.
  rewrite build_subset_spec in Hbuild
    by (pose proof (cutoff_of_bounds (cells nb)); lia).
  destruct (v4_new_notebook_ok _ _ Hbuild) as [-> _]. cbn [new_notebook cells].
  exists (filter (fun c => negb (stripped_install_cell c))
                 (firstn (Z.to_nat k) (cells nb))).
  unfold filtered_prefix.
  replace (Z.to_nat (k + 1)) with (S (Z.to_nat k)) by lia.
  rewrite (firstn_S_nth_error _ _ _ Hn), filter_app. cbn [filter].
  assert (Hkeep : stripped_install_cell c = false).
  { rewrite install_tests_agree. unfold marker_match in Hc.
    destruct (is_install_cell c); [discriminate | reflexivity]. }
  rewrite Hkeep. cbn [negb]. rewrite <- app_assoc. reflexivity.
Qed.

(** ** More on the classification buffer *)

Lemma prefix_app_r (m s b : string) :
  String.prefix m s = true -> String.prefix m (s ++ b) = true.
Proof.
  revert m. induction s as [|c s IH]; intros [|a m] H; cbn [String.append].
  - apply prefix_empty.
  - discriminate.
  - reflexivity.
  - cbn [String.prefix] in *. destruct (ascii_dec a c); [|discriminate].
    apply IH. exact H.
Qed.

Lemma contains_app_r (m s b : string) :
  PyString.contains m s = true -> PyString.contains m (s ++ b) = true.
Proof.
  induction s as [|c s IH]; intros H.
  - cbn [PyString.contains] in H. rewrite orb_false_r in H.
    destruct m as [|a m]; [|discriminate].
    cbn [String.append]. destruct b; reflexivity.
  - cbn [PyString.contains String.append] in *.
    apply orb_true_iff in H. apply orb_true_iff. destruct H as [H|H].
    + left. exact (prefix_app_r m (String c s) b H).
    + right. apply IH. exact H.
Qed.

Lemma contains_app_l (m a s : string) :
  PyString.contains m s = true -> PyString.contains m (a ++ s) = true.
Proof.
  intros H. induction a as [|c a IH]; [exact H|].
  cbn [String.append PyString.contains]. rewrite IH. apply orb_true_r.
Qed.

Lemma join_empty_app (l1 l2 : list string) :
  PyString.join "" (l1 ++ l2) = (PyString.join "" l1 ++ PyString.join "" l2)%string.
Proof.
  induction l1 as [|s l1 IH]; [reflexivity|].
  cbn [app]. rewrite !join_empty_cons, IH, append_assoc. reflexivity.
Qed.

(** X6: when the text contributed by any one output record of the last
    cell contains the success marker, the buffer contains it, whatever the
    other records contribute before and after. *)
Theorem marker_in_any_part_is_seen (cs : list Cell) (c : Cell)
  (parts : list string) (p : string) :
  Forall2 contributes (get_default (outputs c) []) parts ->
  In p parts ->
  PyString.contains success_marker p = true ->
  exists stdout_text,
    inspect_last_cell (mkNotebook (cs ++ [c])) = Ok stdout_text /\
    PyString.contains success_marker stdout_text = true.
Proof.
  intros Hparts Hin Hp. exists (PyString.join "" parts). split.
  - unfold inspect_last_cell. cbn [cells]. rewrite py_index_last. cbn [rbind].
    rewrite (collect_outputs_spec _ _ Hparts). reflexivity.
  - destruct (in_split _ _ Hin) as [l1 [l2 ->]].
    rewrite join_empty_app, join_empty_cons.
    apply contains_app_l, contains_app_r. exact Hp.
Qed.

Lemma str_items_from_ill_typed (items : list pyval) :
  existsb (fun v => negb (isinstance_str v)) items = true ->
  forall i, exists msg, str_items_from i items = Raise (PyExc "TypeError" msg).
Proof.
  induction items as [|v items IH]; intros H i; [discriminate|].
  destruct v; cbn [str_items_from]; try (eexists; reflexivity).
  cbn in H. destruct (IH H (S i)) as [msg Hmsg]. rewrite Hmsg.
  exists msg. reflexivity.
Qed.

Lemma str_items_ill_typed (items : list pyval) :
  existsb (fun v => negb (isinstance_str v)) items = true ->
  exists msg, str_items items = Raise (PyExc "TypeError" msg).
Proof. intros H. exact (str_items_from_ill_typed items H 0%nat). Qed.

Lemma str_iadd_ill_typed (stdout_text : string) (v : pyval) :
  isinstance_str v = false ->
  exists msg, str_iadd stdout_text v = Raise (PyExc "TypeError" msg).
Proof.
  intros H. destruct v; try discriminate; eexists; reflexivity.
Qed.

Lemma output_step_ill_typed (out : Output) (stdout_text : string) :
  ill_typed out ->
  exists msg, output_step stdout_text out = Raise (PyExc "TypeError" msg).
Proof.
  intros [v Hty Htx Hv | d v Hr Hd Hk Hv | items Hty Htb Hit];
    unfold output_step, output_type_is.
  - rewrite Hty, Htx. cbn. apply str_iadd_ill_typed. exact Hv.
  - destruct Hr as [Hty|Hty]; rewrite Hty, Hd; cbn; rewrite Hk;
      apply str_iadd_ill_typed; exact Hv.
  - rewrite Hty, Htb. cbn. unfold py_join.
    destruct (str_items_ill_typed _ Hit) as [msg Hmsg]. rewrite Hmsg.
    exists msg. reflexivity.
Qed.

Lemma collect_outputs_app (outs1 outs2 : list Output) :
  forall stdout_text,
    collect_outputs (outs1 ++ outs2) stdout_text =
    (t <- collect_outputs outs1 stdout_text ;; collect_outputs outs2 t)%result.
Proof.
  induction outs1 as [|out outs1 IH]; intros stdout_text; [reflexivity|].
  cbn [app collect_outputs].
  destruct (output_step stdout_text out) as [t|e]; cbn [rbind]; [apply IH | reflexivity].
Qed.

(** X9: a payload that is not a string among the outputs of the last cell
    (a stream text, a text/plain entry, a traceback item) makes the
    inspection raise TypeError when it is reached, whatever the records
    before it contributed, the success marker included, and the runner then
    returns false. *)
Theorem ill_typed_output_is_failure (env : Env) (nb executed : Notebook)
  (cs : list Cell) (c : Cell) (outs1 outs2 : list Output) (out : Output)
  (parts : list string) :
  nbformat_read env NOTEBOOK_PATH 4 = Ok nb ->
  nbclient_execute env (reduced_document nb) 900 true = Ok executed ->
  cells executed = cs ++ [c] ->
  outputs c = Some (outs1 ++ out :: outs2) ->
  Forall2 contributes outs1 parts ->
  ill_typed out ->
  (exists msg, inspect_last_cell executed = Raise (PyExc "TypeError" msg)) /\
  fst (run_health_audit_notebook env) = Ok false.
Proof.
  intros Hload Hexec Hcells Houts Hparts Hill.
  assert (Hinsp : exists msg, inspect_last_cell executed = Raise (PyExc "TypeError" msg)).
  { unfold inspect_last_cell. rewrite Hcells, py_index_last. cbn [rbind].
    rewrite Houts. cbn [get_default].
    rewrite collect_outputs_app, (collect_outputs_spec _ _ Hparts). cbn [rbind].
    cbn [collect_outputs].
    destruct (output_step_ill_typed out ("" ++ PyString.join "" parts)%string Hill)
      as [msg Hmsg].
    rewrite Hmsg. exists msg. reflexivity. }
  split; [exact Hinsp|].
  destruct Hinsp as [msg Hmsg].
  rewrite run_health_audit_notebook_exact. cbn [fst].
  unfold runner_result, audit_result. rewrite Hload. cbn [rbind].
  rewrite select_cutoff_eq. cbn [rbind].
  rewrite (build_subset_spec nb (cutoff_of (cells nb))
             (proj2 (cutoff_of_bounds (cells nb)))).
  destruct (v4_new_notebook (filtered_prefix nb (cutoff_of (cells nb)) ++ [synthesis_cell]))
    as [subset_nb|e] eqn:Hbuild; cbn [rbind].
  - destruct (v4_new_notebook_ok _ _ Hbuild) as [-> _].
    fold (reduced_document nb). rewrite Hexec. cbn [rbind].
    rewrite Hmsg. reflexivity.
  - apply v4_new_notebook_raises in Hbuild.
    rewrite (validate_raises_exception _ _ Hbuild). reflexivity.
Qed.

(** ** The further properties at work on the scenarios *)

Lemma install_cell_tests_agree_witness :
  marker_match (code_cell "listings = pd.read_csv('listings.csv')") = true /\
  stripped_install_cell (code_cell "listings = pd.read_csv('listings.csv')") = false.
Proof.
  assert (H : marker_match (code_cell "listings = pd.read_csv('listings.csv')") = true)
    by (vm_compute; reflexivity).
  split; [exact H | exact (proj2 (install_cell_tests_agree _) H)].
Defined.


Lemma cutoff_is_valid_index_witness :
  (cells (mkNotebook []) = [] /\ select_cutoff (mkNotebook []) = Ok (-1)) /\
  (build_subset doc5_string_tags 2 = Ok (reduced_document doc5_string_tags) /\
   exists k,
     select_cutoff doc5_string_tags = Ok k /\
     1 <= Z.of_nat (List.length (cells (reduced_document doc5_string_tags))) <= k + 2).
Proof.
  split.
  - destruct (cutoff_is_valid_index (mkNotebook [])) as [k [Hsel [_ [Hiff _]]]].
    split; [reflexivity|].
    rewrite Hsel. f_equal. apply (proj2 Hiff). reflexivity.
  - assert (Hb : build_subset doc5_string_tags 2 = Ok (reduced_document doc5_string_tags))
      by (vm_compute; reflexivity).
    split; [exact Hb|].
    destruct (cutoff_is_valid_index doc5_string_tags)
      as [k [Hsel [_ [_ [_ [_ Hlen]]]]]].
    exists k. split; [exact Hsel|]. apply Hlen.
    assert (Hk : k = 2).
    { assert (H2 : select_cutoff doc5_string_tags = Ok 2) by (vm_compute; reflexivity).
      rewrite H2 in Hsel. injection Hsel as <-. reflexivity. }
    rewrite Hk. exact Hb.
Defined.

Lemma fallback_runs_at_most_twenty_cells_witness :
  (forall c, In c (cells doc_long_plain) -> has_health_tag c = false) /\
  (forall c, In c (cells doc_long_plain) -> marker_match c = false) /\
  build_subset doc_long_plain 19 = Ok (reduced_document doc_long_plain) /\
  exists k,
    select_cutoff doc_long_plain = Ok k /\ k <= 19 /\
    (forall subset_nb,
        build_subset doc_long_plain k = Ok subset_nb ->
        (List.length (cells subset_nb) <= 21)%nat).
Proof.
  assert (H1 : forall c, In c (cells doc_long_plain) -> has_health_tag c = false).
  { intros c Hc. apply negb_true_iff. revert c Hc.
    apply (proj1 (forallb_forall (fun c => negb (has_health_tag c))
                    (cells doc_long_plain))).
    vm_compute. reflexivity. }
  assert (H2 : forall c, In c (cells doc_long_plain) -> marker_match c = false).
  { intros c Hc. apply negb_true_iff. revert c Hc.
    apply (proj1 (forallb_forall (fun c => negb (marker_match c))
                    (cells doc_long_plain))).
    vm_compute. reflexivity. }
  split; [exact H1|]. split; [exact H2|].
  split; [vm_compute; reflexivity|].
  exact (fallback_runs_at_most_twenty_cells doc_long_plain H1 H2).
Defined.

Lemma trailing_cells_do_not_matter_witness :
  (exists c, In c (cells doc5) /\ (has_health_tag c = true \/ marker_match c = true)) /\
  (forall c, In c (cells doc_plain) -> has_health_tag c = false /\ marker_match c = false) /\
  select_cutoff (mkNotebook (cells doc5 ++ cells doc_plain)) =
  select_cutoff (mkNotebook (cells doc5)) /\
  (forall k, select_cutoff (mkNotebook (cells doc5)) = Ok k ->
             build_subset (mkNotebook (cells doc5 ++ cells doc_plain)) k =
             build_subset (mkNotebook (cells doc5)) k).
Proof.
  assert (H1 : exists c, In c (cells doc5) /\
                         (has_health_tag c = true \/ marker_match c = true)).
  { exists (tagged_cell [PyInt 3; PyStr "UI:Health"] "def run_health_audit(l, c, r): pass").
    split; [simpl; auto | left; reflexivity]. }
  assert (H2 : forall c, In c (cells doc_plain) ->
                         has_health_tag c = false /\ marker_match c = false).
  { intros c [<- | [<- | []]]; split; vm_compute; reflexivity. }
  split; [exact H1|]. split; [exact H2|].
  exact (trailing_cells_do_not_matter (cells doc5) (cells doc_plain) H1 H2).
Defined.

Lemma marker_cutoff_cell_is_executed_witness :
  (forall c, In c (cells doc25) -> has_health_tag c = false) /\
  (exists c, In c (cells doc25) /\ marker_match c = true) /\
  build_subset doc25 7 = Ok (reduced_document doc25) /\
  exists k c,
    select_cutoff doc25 = Ok k /\
    nth_error (cells doc25) (Z.to_nat k) = Some c /\
    marker_match c = true /\
    (forall subset_nb,
        build_subset doc25 k = Ok subset_nb ->
        exists before, cells subset_nb = before ++ [c; synthesis_cell]).
Proof.
  assert (H1 : forall c, In c (cells doc25) -> has_health_tag c = false).
  { intros c Hc. apply negb_true_iff. revert c Hc.
    apply (proj1 (forallb_forall (fun c => negb (has_health_tag c)) (cells doc25))).
    vm_compute. reflexivity. }
  assert (H2 : exists c, In c (cells doc25) /\ marker_match c = true).
  { exists (code_cell "calendar = pd.read_csv('calendar.csv')").
    split; [simpl; auto 10 | vm_compute; reflexivity]. }
  split; [exact H1|]. split; [exact H2|].
  split; [vm_compute; reflexivity|].
  exact (marker_cutoff_cell_is_executed doc25 H1 H2).
Defined.

Lemma mixed_outputs_contribute :
  Forall2 contributes (get_default (outputs mixed_cell) []) mixed_parts.
Proof.
  cbn [mixed_cell outputs get_default]. unfold mixed_outputs, mixed_parts.
  repeat first [apply Forall2_cons | apply Forall2_nil].
  - apply stream_text; reflexivity.
  - apply rich_plain_text with (d := [("text/html", PyStr "<b>1</b>");
                                      ("text/plain", PyStr "1")]);
      [left; reflexivity | reflexivity | reflexivity].
  - apply rich_without_plain_text with (d := [("image/png", PyStr "iVBOR")]);
      [right; reflexivity | reflexivity | reflexivity].
  - apply (error_traceback _ ["Traceback"; "NameError"]); reflexivity.
  - apply other_type; discriminate.
  - apply stream_text; reflexivity.
Qed.

Lemma marker_in_any_part_is_seen_witness :
  Forall2 contributes (get_default (outputs mixed_cell) []) mixed_parts /\
  In "WSB_DSS_HEALTH_PERSISTED" mixed_parts /\
  PyString.contains success_marker "WSB_DSS_HEALTH_PERSISTED" = true /\
  exists stdout_text,
    inspect_last_cell (mkNotebook (cells doc_plain ++ [mixed_cell])) = Ok stdout_text /\
    PyString.contains success_marker stdout_text = true.
Proof.
  assert (H2 : In "WSB_DSS_HEALTH_PERSISTED" mixed_parts) by (simpl; auto 10).
  assert (H3 : PyString.contains success_marker "WSB_DSS_HEALTH_PERSISTED" = true)
    by (vm_compute; reflexivity).
  split; [exact mixed_outputs_contribute|]. split; [exact H2|]. split; [exact H3|].
  exact (marker_in_any_part_is_seen (cells doc_plain) mixed_cell mixed_parts _
           mixed_outputs_contribute H2 H3).
Defined.

Lemma ill_typed_output_is_failure_witness :
  (exists msg,
      inspect_last_cell (mkNotebook (cells doc_plain ++ [late_bad_cell])) =
      Raise (PyExc "TypeError" msg)) /\
  fst (run_health_audit_notebook late_bad_output_env) = Ok false.
Proof.
  apply (ill_typed_output_is_failure late_bad_output_env doc_plain
           (mkNotebook (cells doc_plain ++ [late_bad_cell]))
           (cells doc_plain) late_bad_cell
           [stream_output ("WSB_DSS_HEALTH_PERSISTED" ++ PyString.nl)%string] []
           (mkOutput (Some "display_data") None
                     (Some [("text/plain", PyList [PyStr "a"; PyStr "b"])]) None)
           [("WSB_DSS_HEALTH_PERSISTED" ++ PyString.nl)%string]).
  - reflexivity.
  - vm_compute. reflexivity.
  - reflexivity.
  - reflexivity.
  - repeat first [apply Forall2_cons | apply Forall2_nil].
    apply stream_text; reflexivity.
  - apply plain_text_not_str
      with (d := [("text/plain", PyList [PyStr "a"; PyStr "b"])])
           (v := PyList [PyStr "a"; PyStr "b"]);
      [right; reflexivity | reflexivity | reflexivity | reflexivity].
Defined.

